(** * sage-libgap: engine location and saved-workspace freshness

    A shallow embedding of [src/sage_libgap/env.py], [setup.py] and
    [src/sage_libgap/saved_workspace.py].

    The Python code talks to the operating system ([shutil.which],
    [os.environ], [pathlib.Path.exists], [glob.glob], [os.path.getmtime],
    [print]).  Each such call is an [event]; the answers come from a [World].
    A computation is a function from the world to the list of calls it made
    and its [outcome] (a returned value or a raised exception). *)

From Stdlib Require Import String Ascii List ZArith Lia Bool.
From ExtLib Require Import Structures.Monad Structures.MonadExc.
Import ListNotations.
Import MonadNotation.
Local Open Scope string_scope.
Local Open Scope monad_scope.

(** ** Python values used by the code *)

(** [os.path.getmtime] returns a finite double and [float('inf')] is the only
    other float the code builds.  The code only compares floats and takes
    their maximum, so a finite double is kept as its integer rank in the
    order of the doubles. *)
Inductive pyfloat : Type :=
| Fin (t : Z)
| PInf.

(** [a >= b] on floats. *)
Definition fge (a b : pyfloat) : bool :=
  match a, b with
  | PInf, _ => true
  | Fin _, PInf => false
  | Fin x, Fin y => (y <=? x)%Z
  end.

(** [a > b] on floats. *)
Definition fgt (a b : pyfloat) : bool :=
  match a, b with
  | _, PInf => false
  | PInf, Fin _ => true
  | Fin x, Fin y => (y <? x)%Z
  end.

(** The order of the floats as a proposition. *)
Definition fle (a b : pyfloat) : Prop :=
  match a, b with
  | _, PInf => True
  | PInf, Fin _ => False
  | Fin x, Fin y => (x <= y)%Z
  end.

(** The [errno] values a metadata probe can fail with. *)
Inductive errno : Type :=
| ENOENT | EACCES | EPERM | ENOTDIR | ELOOP | EBADF | ENAMETOOLONG | EIO.

(** The exceptions that occur in the three modules. *)
Inductive exn : Type :=
| OSError (code : errno) (filename : string)
| ValueError (msg : string)
| AssertionError (msg : string).

(** The class of the exception object, as [type(e).__name__].  Python maps
    the [errno] of an [OSError] to its subclasses. *)
Definition exn_class (e : exn) : string :=
  match e with
  | OSError ENOENT _ => "FileNotFoundError"
  | OSError EACCES _ => "PermissionError"
  | OSError EPERM _ => "PermissionError"
  | OSError ENOTDIR _ => "NotADirectoryError"
  | OSError _ _ => "OSError"
  | ValueError _ => "ValueError"
  | AssertionError _ => "AssertionError"
  end.

(** [isinstance(e, OSError)]: what an [except OSError] clause catches. *)
Definition isinstance_OSError (e : exn) : bool :=
  match e with
  | OSError _ _ => true
  | _ => false
  end.

Definition exn_msg (e : exn) : string :=
  match e with
  | OSError _ f => f
  | ValueError m => m
  | AssertionError m => m
  end.

(** ** Strings *)

Definition nonempty (s : string) : bool :=
  match s with
  | EmptyString => false
  | String _ _ => true
  end.

(** [s.split(sep)] for a one-character separator: the segments between the
    separators, empty ones included; never an empty list. *)
Fixpoint split (sep : ascii) (s : string) : list string :=
  match s with
  | EmptyString => [EmptyString]
  | String c r =>
      if Ascii.eqb c sep then EmptyString :: split sep r
      else match split sep r with
           | seg :: segs => String c seg :: segs
           | [] => [String c EmptyString]
           end
  end.

(** [sep.join(segs)]. *)
Fixpoint join_with (sep : ascii) (segs : list string) : string :=
  match segs with
  | [] => EmptyString
  | [seg] => seg
  | seg :: rest => seg ++ String sep (join_with sep rest)
  end.

Definition startswith (p s : string) : bool := String.prefix p s.

Fixpoint endswith_char (c : ascii) (s : string) : bool :=
  match s with
  | EmptyString => false
  | String d EmptyString => Ascii.eqb d c
  | String _ r => endswith_char c r
  end.

(** [needle in s]. *)
Fixpoint contains (needle s : string) : bool :=
  String.prefix needle s ||
  match s with
  | EmptyString => false
  | String _ r => contains needle r
  end.

Fixpoint has_char (c : ascii) (s : string) : bool :=
  match s with
  | EmptyString => false
  | String d r => Ascii.eqb d c || has_char c r
  end.

Fixpoint all_char (c : ascii) (s : string) : bool :=
  match s with
  | EmptyString => true
  | String d r => Ascii.eqb d c && all_char c r
  end.

(** [s.rstrip(c)]. *)
Fixpoint rstrip (c : ascii) (s : string) : string :=
  match s with
  | EmptyString => EmptyString
  | String d r =>
      match rstrip c r with
      | EmptyString => if Ascii.eqb d c then EmptyString else String d EmptyString
      | r' => String d r'
      end
  end.

(** ** [posixpath] *)

Definition slash : ascii := "/"%char.
Definition semicolon : ascii := ";"%char.

(** [os.path.join] of [a] and the components [p]. *)
Definition os_path_join (a : string) (p : list string) : string :=
  fold_left
    (fun path b =>
       if startswith "/" b then b
       else if negb (nonempty path) || endswith_char slash path then path ++ b
       else path ++ "/" ++ b)
    p a.

(** [p[:p.rfind('/') + 1]]. *)
Fixpoint upto_last_slash (p : string) : string :=
  match p with
  | EmptyString => EmptyString
  | String c r =>
      if has_char slash r then String c (upto_last_slash r)
      else if Ascii.eqb c slash then String c EmptyString
      else EmptyString
  end.

(** [os.path.dirname(p)]. *)
Definition os_path_dirname (p : string) : string :=
  let head := upto_last_slash p in
  if nonempty head && negb (all_char slash head) then rstrip slash head
  else head.

(** ** [pathlib.PurePosixPath] *)

(** A path is its root (empty, one slash or two) and its components. *)
Record Path : Type := mkPath { path_root : string; path_parts : list string }.

Definition parse_root (s : string) : string :=
  if startswith "//" s && negb (startswith "///" s) then "//"
  else if startswith "/" s then "/"
  else "".

Definition parse_parts (s : string) : list string :=
  filter (fun x => nonempty x && negb (String.eqb x ".")) (split slash s).

(** [pathlib.Path(s)]. *)
Definition Path_of (s : string) : Path :=
  {| path_root := parse_root s; path_parts := parse_parts s |}.

(** [str(p)], which is also [p.as_posix()] on POSIX. *)
Definition Path_str (p : Path) : string :=
  match path_root p, path_parts p with
  | EmptyString, [] => "."
  | r, parts => r ++ join_with slash parts
  end.

Definition as_posix (p : Path) : string := Path_str p.

(** [p.parent]. *)
Definition Path_parent (p : Path) : Path :=
  match path_parts p with
  | [] => p
  | parts => {| path_root := path_root p; path_parts := removelast parts |}
  end.

(** [p.joinpath] on its arguments: an absolute argument replaces what came before. *)
Definition joinpath (p : Path) (args : list string) : Path :=
  fold_left
    (fun acc a =>
       let q := Path_of a in
       if nonempty (path_root q) then q
       else {| path_root := path_root acc;
               path_parts := (path_parts acc ++ path_parts q)%list |})
    args p.

(** ** The world and the computations over it *)

Inductive outcome (A : Type) : Type :=
| Return (a : A)
| Raise (e : exn).
Arguments Return {A} a.
Arguments Raise {A} e.

(** What the process sees of its surroundings.  The listing of a directory
    and the probe of a file are separate questions to the operating system:
    nothing ties what [glob] lists to what [getmtime] then finds. *)
Record World : Type := {
  which : string -> option string;        (* shutil.which *)
  environ_get : string -> option string;  (* os.environ.get(name, None) *)
  path_stat : string -> outcome unit;     (* os.stat, as pathlib.Path.stat calls it *)
  glob : string -> list string;           (* glob.glob *)
  getmtime : string -> outcome Z;         (* os.path.getmtime *)
  py_debug : bool                         (* __debug__: false under python -O *)
}.

Inductive event : Type :=
| EvWhich (cmd : string)
| EvEnviron (name : string)
| EvExists (path : string)
| EvGlob (pattern : string)
| EvGetmtime (path : string)
| EvPrint (text : string).

Definition IO (A : Type) : Type := World -> list event * outcome A.

Definition run {A} (m : IO A) (w : World) : list event * outcome A := m w.
Definition trace_of {A} (m : IO A) (w : World) : list event := fst (m w).
Definition result_of {A} (m : IO A) (w : World) : outcome A := snd (m w).

#[export] Instance Monad_IO : Monad IO :=
  {| ret := fun _ a _ => ([], Return a);
     bind := fun _ _ m k w =>
       match m w with
       | (tr, Return a) => let '(tr', r) := k a w in ((tr ++ tr')%list, r)
       | (tr, Raise e) => (tr, Raise e)
       end |}.

#[export] Instance Exc_IO : MonadExc exn IO :=
  {| raise := fun _ e _ => ([], Raise e);
     catch := fun _ m h w =>
       match m w with
       | (tr, Raise e) => let '(tr', r) := h e w in ((tr ++ tr')%list, r)
       | r => r
       end |}.

(** [try: body except OSError: handler]; other exceptions pass through. *)
Definition try_except_OSError {A} (body : IO A) (handler : IO A) : IO A :=
  catch body (fun e => if isinstance_OSError e then handler else raise e).

Definition os_which (cmd : string) : IO (option string) :=
  fun w => ([EvWhich cmd], Return (which w cmd)).

Definition os_environ_get (name : string) : IO (option string) :=
  fun w => ([EvEnviron name], Return (environ_get w name)).

(** The [errno] values for which [pathlib] takes a failed [stat] as the
    answer that the path is not there ([_IGNORED_ERRNOS]). *)
Definition ignored_errno (code : errno) : bool :=
  match code with
  | ENOENT | ENOTDIR | EBADF | ELOOP => true
  | _ => false
  end.

(** What [pathlib.Path.exists] answers for the text of a path: [True] when
    [stat] succeeds; [False] when it fails with an ignored [OSError] or with
    a [ValueError]; every other exception of [stat] is raised again. *)
Definition Path_exists_answer (w : World) (path : string) : outcome bool :=
  match path_stat w path with
  | Return _ => Return true
  | Raise (OSError code filename) =>
      if ignored_errno code then Return false else Raise (OSError code filename)
  | Raise (ValueError _) => Return false
  | Raise e => Raise e
  end.

Definition Path_exists (p : Path) : IO bool :=
  fun w => ([EvExists (Path_str p)], Path_exists_answer w (Path_str p)).

(** The path is there: [stat] succeeds. *)
Definition path_exists (w : World) (path : string) : bool :=
  match path_stat w path with
  | Return _ => true
  | Raise _ => false
  end.

Definition glob_glob (pattern : string) : IO (list string) :=
  fun w => ([EvGlob pattern], Return (glob w pattern)).

Definition os_path_getmtime (path : string) : IO pyfloat :=
  fun w => ([EvGetmtime path],
            match getmtime w path with
            | Return t => Return (Fin t)
            | Raise e => Raise e
            end).

Definition print (text : string) : IO unit :=
  fun _ => ([EvPrint text], Return tt).

(** [assert cond, msg]: the condition is evaluated, and the message built,
    only when [__debug__] holds. *)
Definition py_assert (cond : IO bool) (msg : string) : IO unit :=
  fun w =>
    if py_debug w then
      (b <- cond ;; if b then ret tt else raise (AssertionError msg)) w
    else ([], Return tt).

(** [for x in xs: s = body(s, x)]. *)
Fixpoint for_each {A S} (xs : list A) (body : S -> A -> IO S) (s : S) : IO S :=
  match xs with
  | [] => ret s
  | x :: rest => s' <- body s x ;; for_each rest body s'
  end.

(** [map(f, xs)] consumed to the end: the first exception stops it. *)
Fixpoint map_io {A B} (f : A -> IO B) (xs : list A) : IO (list B) :=
  match xs with
  | [] => ret []
  | x :: rest => y <- f x ;; ys <- map_io f rest ;; ret (y :: ys)
  end.

(** [max(items)] on floats: the first item, replaced by each later item that
    is greater. *)
Definition py_max (items : list pyfloat) : IO pyfloat :=
  match items with
  | [] => raise (ValueError "max() arg is an empty sequence")
  | x :: rest => ret (fold_left (fun m y => if fgt y m then y else m) rest x)
  end.

(** [x or y] on an optional string: [None] and the empty string are false. *)
Definition truthy (v : option string) : bool :=
  match v with
  | Some s => nonempty s
  | None => false
  end.

(** ** [src/sage_libgap/env.py] *)

Module Env.

Definition gap_not_found : string :=
  "GAP not found. Either add the GAP folder to the PATH, or set the " ++
  "GAP_ROOT environment variable (if using Unix, do not forget to " ++
  "use the `export` shell command) to point to it.".

Definition lib_not_found (gap_root : Path) : string :=
  "Folder `lib` with the GAP `init.g` file not found. " ++
  "Expected it in " ++ Path_str (joinpath gap_root ["lib"]).

Definition pkg_not_found (gap_root : Path) : string :=
  "Folder with the GAP packages not found. " ++
  "Expected it in " ++ Path_str (joinpath gap_root ["pkg"]).

(** The first half of [find_gap]: the candidate root. *)
Definition candidate_root : IO Path :=
  gap_exec <- os_which "gap" ;;
  match gap_exec with
  | None =>
      gap_root_str <- os_environ_get "GAP_ROOT" ;;
      match gap_root_str with
      | None => raise (ValueError gap_not_found)
      | Some s => ret (Path_of s)
      end
  | Some exe => ret (Path_parent (Path_of exe))
  end.

Definition find_gap : IO Path :=
  gap_root <- candidate_root ;;
  py_assert (Path_exists (joinpath gap_root ["lib"; "init.g"]))
            (lib_not_found gap_root) ;;
  py_assert (Path_exists (joinpath gap_root ["pkg"]))
            (pkg_not_found gap_root) ;;
  ret gap_root.

(** [os.environ.get("GAP_ROOT_PATHS", None) or find_gap().as_posix()]. *)
Definition GAP_ROOT_PATHS : IO string :=
  v <- os_environ_get "GAP_ROOT_PATHS" ;;
  if truthy v then
    match v with
    | Some s => ret s
    | None => ret ""
    end
  else
    gap_root <- find_gap ;; ret (as_posix gap_root).

End Env.

(** ** More of Python's strings *)

(** [s.find(needle)]: the lowest index where [needle] occurs, or [-1]. *)
Fixpoint str_find (s needle : string) : Z :=
  if String.prefix needle s then 0%Z
  else match s with
       | EmptyString => (-1)%Z
       | String _ r =>
           let k := str_find r needle in
           if (k <? 0)%Z then (-1)%Z else (k + 1)%Z
       end.

(** The bound of a slice: a negative index counts from the end, and the
    index is brought into the string. *)
Definition slice_bound (len i : Z) : Z :=
  if (i <? 0)%Z then Z.max (i + len) 0 else Z.min i len.

(** [s[a:b]]. *)
Definition str_slice (s : string) (a b : Z) : string :=
  let len := Z.of_nat (String.length s) in
  let start := slice_bound len a in
  let stop := slice_bound len b in
  substring (Z.to_nat start) (Z.to_nat (stop - start)) s.

(** [s.replace(old, new)] for one-character [old] and [new]. *)
Fixpoint replace_char (old new : ascii) (s : string) : string :=
  match s with
  | EmptyString => EmptyString
  | String c r =>
      String (if Ascii.eqb c old then new else c) (replace_char old new r)
  end.

(** [s[:-1]] of a string that is not empty. *)
Fixpoint but_last (s : string) : string :=
  match s with
  | EmptyString => EmptyString
  | String _ EmptyString => EmptyString
  | String c r => String c (but_last r)
  end.

(** ** [setup.py] *)

Module Setup.

Definition libs_not_found (gap_root : Path) : string :=
  "Folder with the GAP library not found. " ++
  "Expected it in " ++ Path_str (joinpath gap_root [".libs"]).

Definition headers_not_found (gap_root : Path) : string :=
  "Folder with the GAP headers not found. " ++
  "Expected it in " ++ Path_str (joinpath gap_root ["build"; "gap"]).

Definition find_gap : IO Path :=
  gap_root <- Env.candidate_root ;;
  py_assert (Path_exists (joinpath gap_root [".libs"]))
            (libs_not_found gap_root) ;;
  py_assert (Path_exists (joinpath gap_root ["build"; "gap"]))
            (headers_not_found gap_root) ;;
  ret gap_root.

(** [os.sep] on POSIX. *)
Definition os_sep : ascii := slash.

Definition file_to_module (file_path : Path) (namespace : string) : string :=
  let file_path_string := as_posix file_path in
  let module_path :=
    str_slice file_path_string
              (str_find file_path_string namespace)
              (str_find file_path_string ".pyx") in
  let module_name := replace_char os_sep "."%char module_path in
  module_name.

End Setup.

(** ** [src/sage_libgap/saved_workspace.py] *)

Module SavedWorkspace.

(** What the module has in scope besides its own functions: its [__file__],
    the [GAP_ROOT_PATHS] string imported from [env], and the
    [gap_workspace_file] function of [interfaces.gap_workspace], which names
    the workspace file of a kind and a name. *)
Record Imports : Type := {
  module_file : string;
  GAP_ROOT_PATHS : string;
  gap_workspace_file : string -> string -> string
}.

Definition no_files_message : string := "Unable to find LibGAP files.".

(** The pattern whose matches are the entries of the module's directory. *)
Definition libgap_pattern (im : Imports) : string :=
  os_path_join (os_path_dirname (module_file im)) ["*"].

(** The pattern whose matches are the packages under a search-path entry. *)
Definition pkg_pattern (d : string) : string := os_path_join d ["pkg"; "*"].

(** The loop of [timestamp] over the entries of the search path. *)
Definition gap_packages_loop (paths : string) : IO (list string) :=
  for_each (split semicolon paths)
    (fun gap_packages d =>
       if nonempty d then
         found <- glob_glob (pkg_pattern d) ;; ret ((gap_packages ++ found)%list)
       else ret gap_packages)
    [].

(** The candidate files of [timestamp]. *)
Definition candidate_files (im : Imports) : IO (list string) :=
  libgap_files <- glob_glob (libgap_pattern im) ;;
  gap_packages <- gap_packages_loop (GAP_ROOT_PATHS im) ;;
  ret ((libgap_files ++ gap_packages)%list).

Definition timestamp (im : Imports) : IO pyfloat :=
  files <- candidate_files im ;;
  if Nat.eqb (List.length files) 0 then
    print no_files_message ;; ret PInf
  else
    mtimes <- map_io os_path_getmtime files ;; py_max mtimes.

Definition workspace (im : Imports) (name : string) : IO (string * bool) :=
  let workspace := gap_workspace_file im "libgap" name in
  probe <- try_except_OSError
             (workspace_mtime <- os_path_getmtime workspace ;;
              ret (Some workspace_mtime))
             (ret None) ;;
  match probe with
  | None => ret (workspace, false)
  | Some workspace_mtime =>
      now <- timestamp im ;; ret (workspace, fge workspace_mtime now)
  end.

(** [workspace()] with the default name. *)
Definition workspace_default (im : Imports) : IO (string * bool) :=
  workspace im "workspace".

End SavedWorkspace.

(** ** Worlds to run the code in *)

(** A finite table read as a function, with a default for the other keys. *)
Definition table {A} (default : A) (rows : list (string * A)) (key : string) : A :=
  match find (fun row => String.eqb (fst row) key) rows with
  | Some row => snd row
  | None => default
  end.

(** The answer the operating system gives for a path that is not there. *)
Definition no_such_file (path : string) : outcome Z := Raise (OSError ENOENT path).

Definition mtimes (rows : list (string * outcome Z)) (path : string) : outcome Z :=
  table (no_such_file path) rows path.

(** The [stat] of a world in which the paths that [present] accepts are
    there and no other path is. *)
Definition stat_of (present : string -> bool) (path : string) : outcome unit :=
  if present path then Return tt else Raise (OSError ENOENT path).

(** [touch f]: the file [f], if it can be probed, gets the modification
    time [t]; nothing else changes. *)
Definition touch (f : string) (t : Z) (w : World) : World :=
  {| which := which w;
     environ_get := environ_get w;
     path_stat := path_stat w;
     glob := glob w;
     getmtime := fun p =>
       if String.eqb p f then
         match getmtime w p with
         | Return _ => Return t
         | Raise e => Raise e
         end
       else getmtime w p;
     py_debug := py_debug w |}.

(** GAP installed in [/opt/gap] with its launcher on the search path, the
    package installed in [/site/sage_libgap], a saved workspace [/ws/w1]
    as new as the newest candidate and an older one [/ws/w0]. *)
Definition installed : World :=
  {| which := table None [("gap", Some "/opt/gap/gap")];
     environ_get := table None [("GAP_ROOT_PATHS", Some "/opt/gap;")];
     path_stat :=
       stat_of (table false [("/opt/gap/lib/init.g", true); ("/opt/gap/pkg", true)]);
     glob :=
       table [] [("/site/sage_libgap/*",
                  ["/site/sage_libgap/env.py"; "/site/sage_libgap/libgap.so"]);
                 ("/opt/gap/pkg/*", ["/opt/gap/pkg/smallsemi"])];
     getmtime :=
       mtimes [("/site/sage_libgap/env.py", Return 5%Z);
               ("/site/sage_libgap/libgap.so", Return 9%Z);
               ("/opt/gap/pkg/smallsemi", Return 7%Z);
               ("/ws/w1", Return 9%Z);
               ("/ws/w0", Return 8%Z);
               ("/ws/locked", Raise (OSError EACCES "/ws/locked"))];
     py_debug := true |}.

Definition installed_imports : SavedWorkspace.Imports :=
  {| SavedWorkspace.module_file := "/site/sage_libgap/saved_workspace.py";
     SavedWorkspace.GAP_ROOT_PATHS := ";/opt/gap;;/nowhere;";
     SavedWorkspace.gap_workspace_file := fun kind name => "/ws/" ++ name |}.

(** Nothing installed and nothing set in the environment. *)
Definition bare : World :=
  {| which := fun _ => None;
     environ_get := fun _ => None;
     path_stat := stat_of (fun _ => false);
     glob := fun _ => [];
     getmtime := no_such_file;
     py_debug := true |}.

(** [GAP_ROOT] points to an empty directory, no launcher on the search path. *)
Definition empty_root : World :=
  {| which := fun _ => None;
     environ_get := table None [("GAP_ROOT", Some "/tmp/empty")];
     path_stat := stat_of (table false [("/tmp/empty", true)]);
     glob := fun _ => [];
     getmtime := no_such_file;
     py_debug := true |}.

(** A root with [lib/init.g] and no [pkg]. *)
Definition no_pkg_root : World :=
  {| which := fun _ => None;
     environ_get := table None [("GAP_ROOT", Some "/srv/gap")];
     path_stat := stat_of (table false [("/srv/gap", true); ("/srv/gap/lib/init.g", true)]);
     glob := fun _ => [];
     getmtime := no_such_file;
     py_debug := true |}.

(** [empty_root] under [python -O]. *)
Definition empty_root_optimized : World :=
  {| which := which empty_root;
     environ_get := environ_get empty_root;
     path_stat := path_stat empty_root;
     glob := glob empty_root;
     getmtime := getmtime empty_root;
     py_debug := false |}.

(** A build tree: [.libs] and [build/gap], but no [lib/init.g] and no [pkg]. *)
Definition build_tree : World :=
  {| which := table None [("gap", Some "/src/gap/gap")];
     environ_get := fun _ => None;
     path_stat :=
       stat_of (table false [("/src/gap/.libs", true); ("/src/gap/build/gap", true)]);
     glob := fun _ => [];
     getmtime := no_such_file;
     py_debug := true |}.

(** [GAP_ROOT_PATHS] set to the empty string, and no GAP to be found. *)
Definition empty_search_path : World :=
  {| which := fun _ => None;
     environ_get := table None [("GAP_ROOT_PATHS", Some "")];
     path_stat := stat_of (fun _ => false);
     glob := fun _ => [];
     getmtime := no_such_file;
     py_debug := true |}.

(** [GAP_ROOT_PATHS] set to the empty string, with GAP installed. *)
Definition empty_search_path_installed : World :=
  {| which := which installed;
     environ_get := table None [("GAP_ROOT_PATHS", Some "")];
     path_stat := path_stat installed;
     glob := glob installed;
     getmtime := getmtime installed;
     py_debug := true |}.

(** The listing still names [env.py], but the file is gone when probed. *)
Definition vanished : World :=
  {| which := which installed;
     environ_get := environ_get installed;
     path_stat := path_stat installed;
     glob := glob installed;
     getmtime :=
       mtimes [("/site/sage_libgap/libgap.so", Return 9%Z);
               ("/opt/gap/pkg/smallsemi", Return 7%Z);
               ("/ws/w1", Return 9%Z)];
     py_debug := true |}.

(** ** Predicates used in the statements *)

(** The computation ends by raising an exception of class [cls]. *)
Definition fails_with_class {A} (cls : string) (m : IO A) (w : World) : Prop :=
  exists e, result_of m w = Raise e /\ exn_class e = cls.

Definition is_glob (ev : event) : bool :=
  match ev with
  | EvGlob _ => true
  | _ => false
  end.

(** The entries of a search path that [timestamp] looks into. *)
Definition search_path_entries (paths : string) : list string :=
  filter nonempty (split semicolon paths).

(** The patterns [timestamp] hands to [glob.glob], in order. *)
Definition glob_patterns (im : SavedWorkspace.Imports) : list string :=
  SavedWorkspace.libgap_pattern im ::
  map SavedWorkspace.pkg_pattern
      (search_path_entries (SavedWorkspace.GAP_ROOT_PATHS im)).

(** The files these patterns match in a world. *)
Definition listed_files (im : SavedWorkspace.Imports) (w : World) : list string :=
  flat_map (glob w) (glob_patterns im).

(** The maximum as [py_max] computes it, from a first item on. *)
Definition max_from (x : pyfloat) (rest : list pyfloat) : pyfloat :=
  fold_left (fun m y => if fgt y m then y else m) rest x.

(** The probe of [p] succeeds in [w] with modification time [t]. *)
Definition probed (w : World) (p : string) (t : Z) : Prop :=
  getmtime w p = Return t.

(** The world [w'] lists the same files as [w], and every file that can be
    probed in [w] can be probed in [w'] and is not older there. *)
Definition not_older (w w' : World) : Prop :=
  (forall pattern, glob w' pattern = glob w pattern) /\
  (forall p t, getmtime w p = Return t ->
               exists t', getmtime w' p = Return t' /\ (t <= t')%Z).

(** The components of a path are never empty. *)
Definition Path_wf (p : Path) : Prop :=
  Forall (fun part => nonempty part = true) (path_parts p).

(** The imports with another value of [GAP_ROOT_PATHS]. *)
Definition with_paths (im : SavedWorkspace.Imports) (paths : string)
  : SavedWorkspace.Imports :=
  {| SavedWorkspace.module_file := SavedWorkspace.module_file im;
     SavedWorkspace.GAP_ROOT_PATHS := paths;
     SavedWorkspace.gap_workspace_file := SavedWorkspace.gap_workspace_file im |}.

(** The world [w'] has every candidate of [w], with the time it had, and all
    its candidates can be probed. *)
Definition gains_candidates (im : SavedWorkspace.Imports) (w w' : World) : Prop :=
  incl (listed_files im w) (listed_files im w') /\
  (forall p, In p (listed_files im w) -> getmtime w' p = getmtime w p) /\
  (forall p, In p (listed_files im w') -> exists t, getmtime w' p = Return t).

(** [installed] after the package [semigroups] was added to GAP. *)
Definition package_added : World :=
  {| which := which installed;
     environ_get := environ_get installed;
     path_stat := path_stat installed;
     glob :=
       table [] [("/site/sage_libgap/*",
                  ["/site/sage_libgap/env.py"; "/site/sage_libgap/libgap.so"]);
                 ("/opt/gap/pkg/*",
                  ["/opt/gap/pkg/semigroups"; "/opt/gap/pkg/smallsemi"])];
     getmtime :=
       mtimes [("/site/sage_libgap/env.py", Return 5%Z);
               ("/site/sage_libgap/libgap.so", Return 9%Z);
               ("/opt/gap/pkg/smallsemi", Return 7%Z);
               ("/opt/gap/pkg/semigroups", Return 11%Z);
               ("/ws/w1", Return 9%Z)];
     py_debug := true |}.

(** [GAP_ROOT] points into a directory that the process may not search:
    every [stat] below it is refused. *)
Definition locked_root : World :=
  {| which := fun _ => None;
     environ_get := table None [("GAP_ROOT", Some "/root/gap")];
     path_stat := fun path => Raise (OSError EACCES path);
     glob := fun _ => [];
     getmtime := no_such_file;
     py_debug := true |}.

(** A build tree that is also an installation, with [GAP_ROOT] set as well. *)
Definition full_tree : World :=
  {| which := table None [("gap", Some "/src/gap/gap")];
     environ_get := table None [("GAP_ROOT", Some "/elsewhere")];
     path_stat :=
       stat_of (table false [("/src/gap/.libs", true); ("/src/gap/build/gap", true);
                    ("/src/gap/lib/init.g", true); ("/src/gap/pkg", true)]);
     glob := fun _ => [];
     getmtime := no_such_file;
     py_debug := true |}.

(** A saved workspace, and nothing else that could be found. *)
Definition lonely_workspace : World :=
  {| which := fun _ => None;
     environ_get := fun _ => None;
     path_stat := stat_of (fun _ => false);
     glob := fun _ => [];
     getmtime := mtimes [("/ws/w1", Return 9%Z)];
     py_debug := true |}.

(** A path as [pathlib] builds it: one of the three roots, and components
    that are neither empty nor contain a slash. *)
Definition Path_canonical (p : Path) : Prop :=
  (path_root p = "" \/ path_root p = "/" \/ path_root p = "//") /\
  Forall (fun part => nonempty part = true /\ has_char slash part = false)
         (path_parts p).

(** * Properties *)

(** ** Running computations *)

Lemma run_ret {A} (a : A) (w : World) : run (ret a) w = ([], Return a).
Proof. reflexivity. Qed.

Lemma run_bind {A B} (m : IO A) (k : A -> IO B) (w : World) :
  run (bind m k) w =
  match run m w with
  | (tr, Return a) => ((tr ++ fst (run (k a) w))%list, snd (run (k a) w))
  | (tr, Raise e) => (tr, Raise e)
  end.
Proof.
  unfold run; cbn.
  destruct (m w) as [tr [a | e]]; [destruct (k a w) |]; reflexivity.
Qed.

Lemma run_bind_return {A B} (m : IO A) (k : A -> IO B) w tr a :
  run m w = (tr, Return a) ->
  run (bind m k) w = ((tr ++ trace_of (k a) w)%list, result_of (k a) w).
Proof. intros H. rewrite run_bind, H. reflexivity. Qed.

Lemma run_bind_raise {A B} (m : IO A) (k : A -> IO B) w tr e :
  run m w = (tr, Raise e) -> run (bind m k) w = (tr, Raise e).
Proof. intros H. rewrite run_bind, H. reflexivity. Qed.

Lemma run_split {A} (m : IO A) (w : World) :
  run m w = (trace_of m w, result_of m w).
Proof. unfold run, trace_of, result_of. destruct (m w); reflexivity. Qed.

Lemma run_getmtime_return w p t :
  getmtime w p = Return t ->
  run (os_path_getmtime p) w = ([EvGetmtime p], Return (Fin t)).
Proof. intros H. unfold run, os_path_getmtime. rewrite H. reflexivity. Qed.

Lemma run_getmtime_raise w p e :
  getmtime w p = Raise e ->
  run (os_path_getmtime p) w = ([EvGetmtime p], Raise e).
Proof. intros H. unfold run, os_path_getmtime. rewrite H. reflexivity. Qed.

Lemma run_try_except_OSError {A} (body handler : IO A) (w : World) :
  run (try_except_OSError body handler) w =
  match run body w with
  | (tr, Raise e) =>
      if isinstance_OSError e
      then ((tr ++ trace_of handler w)%list, result_of handler w)
      else (tr, Raise e)
  | r => r
  end.
Proof.
  unfold run, try_except_OSError, trace_of, result_of; cbn.
  destruct (body w) as [tr [a | e]]; [reflexivity |].
  destruct (isinstance_OSError e); cbn.
  - destruct (handler w); reflexivity.
  - rewrite app_nil_r. reflexivity.
Qed.

(** ** The order of the floats *)

Lemma fge_fle a b : fge a b = true <-> fle b a.
Proof.
  destruct a as [x |], b as [y |]; cbn; try tauto; try easy.
  apply Z.leb_le.
Qed.

Lemma fgt_fle a b : fgt a b = false <-> fle a b.
Proof.
  destruct a as [x |], b as [y |]; cbn; try tauto; try easy.
  apply Z.ltb_ge.
Qed.

Lemma fle_refl a : fle a a.
Proof. destruct a; cbn; [lia | exact I]. Qed.

Lemma fle_trans a b c : fle a b -> fle b c -> fle a c.
Proof. destruct a, b, c; cbn; try tauto; lia. Qed.

Lemma fle_total a b : fle a b \/ fle b a.
Proof. destruct a, b; cbn; try tauto; lia. Qed.

(** ** [workspace] *)

Section Workspace.

Import SavedWorkspace.

Variable im : Imports.
Variable w : World.
Variable name : string.

Let path : string := gap_workspace_file im "libgap" name.

(** When the probe of the workspace file raises an [OSError], whatever its
    [errno], [workspace] answers [(path, False)] after that single probe. *)
Lemma workspace_probe_OSError code filename :
  getmtime w path = Raise (OSError code filename) ->
  run (workspace im name) w = ([EvGetmtime path], Return (path, false)).
Proof.
  intros H. unfold workspace. fold path.
  rewrite run_bind, run_try_except_OSError, run_bind.
  rewrite (run_getmtime_raise _ _ _ H). reflexivity.
Qed.

(** An exception of the probe that is not an [OSError] is not caught. *)
Lemma workspace_probe_other_error e :
  getmtime w path = Raise e -> isinstance_OSError e = false ->
  run (workspace im name) w = ([EvGetmtime path], Raise e).
Proof.
  intros H He. unfold workspace. fold path.
  rewrite run_bind, run_try_except_OSError, run_bind.
  rewrite (run_getmtime_raise _ _ _ H), He. reflexivity.
Qed.

(** When the probe succeeds, [workspace] goes on with [timestamp]. *)
Lemma workspace_probe_ok m :
  getmtime w path = Return m ->
  run (workspace im name) w =
  (EvGetmtime path :: trace_of (timestamp im) w,
   match result_of (timestamp im) w with
   | Return now => Return (path, fge (Fin m) now)
   | Raise e => Raise e
   end).
Proof.
  intros H. unfold workspace. fold path.
  rewrite run_bind, run_try_except_OSError, run_bind.
  rewrite (run_getmtime_return _ _ _ H), run_ret. cbn [fst snd app].
  rewrite run_bind, (run_split (timestamp im) w).
  destruct (result_of (timestamp im) w) as [now | e]; [| reflexivity].
  rewrite run_ret. cbn [fst snd]. rewrite app_nil_r. reflexivity.
Qed.

(** C1: when the workspace file can be probed and the freshness timestamp is
    computed, [workspace] returns the path with a flag that is true exactly
    when the file's modification time is at least the timestamp; a
    modification time equal to the timestamp counts as fresh. *)
Theorem workspace_fresh_iff_mtime_ge_timestamp (m : Z) (now : pyfloat) :
  getmtime w path = Return m ->
  result_of (timestamp im) w = Return now ->
  (exists is_fresh,
      result_of (workspace im name) w = Return (path, is_fresh) /\
      (is_fresh = true <-> fle now (Fin m))) /\
  (now = Fin m -> result_of (workspace im name) w = Return (path, true)).
Proof.
  intros Hm Hnow.
  pose proof (workspace_probe_ok m Hm) as Hrun.
  assert (Hres : result_of (workspace im name) w = Return (path, fge (Fin m) now)).
  { change (result_of (workspace im name) w)
      with (snd (run (workspace im name) w)).
    rewrite Hrun. cbn [snd]. rewrite Hnow. reflexivity. }
  split.
  - exists (fge (Fin m) now). split; [exact Hres | apply fge_fle].
  - intros ->. rewrite Hres. cbn. rewrite Z.leb_refl. reflexivity.
Qed.

(** C2: when no file exists at the workspace path, [workspace] returns
    [(path, False)] without raising and without computing the timestamp,
    whatever the rest of the file system looks like. *)
Theorem workspace_missing_file_not_fresh filename :
  getmtime w path = Raise (OSError ENOENT filename) ->
  result_of (workspace im name) w = Return (path, false) /\
  trace_of (workspace im name) w = [EvGetmtime path].
Proof.
  intros H. pose proof (workspace_probe_OSError ENOENT filename H) as Hrun.
  change (snd (run (workspace im name) w) = Return (path, false) /\
          fst (run (workspace im name) w) = [EvGetmtime path]).
  rewrite Hrun. split; reflexivity.
Qed.

(** C10: every [OSError] of the probe, whatever its [errno], gives
    [(path, False)]; the error does not reach the caller. *)
Theorem workspace_any_OSError_not_fresh code filename :
  getmtime w path = Raise (OSError code filename) ->
  result_of (workspace im name) w = Return (path, false) /\
  (forall e, result_of (workspace im name) w <> Raise e).
Proof.
  intros H. pose proof (workspace_probe_OSError code filename H) as Hrun.
  change (result_of (workspace im name) w)
    with (snd (run (workspace im name) w)).
  rewrite Hrun. cbn [snd]. split; [reflexivity | discriminate].
Qed.

End Workspace.

(** ** Strings and paths *)

Lemma split_not_nil sep s : split sep s <> [].
Proof.
  destruct s as [| c r]; cbn; [discriminate |].
  destruct (Ascii.eqb c sep); [discriminate |].
  destruct (split sep r); discriminate.
Qed.

(** Joining the segments with the separator gives the string back. *)
Lemma join_with_split sep s : join_with sep (split sep s) = s.
Proof.
  induction s as [| c r IH]; [reflexivity |].
  cbn [split]. destruct (Ascii.eqb_spec c sep) as [-> | Hne].
  - pose proof (split_not_nil sep r) as Hnil.
    destruct (split sep r) as [| seg segs]; [contradiction |].
    cbn [join_with] in *. rewrite IH. reflexivity.
  - pose proof (split_not_nil sep r) as Hnil.
    destruct (split sep r) as [| seg segs]; [contradiction |].
    destruct segs as [| seg' segs'].
    + cbn in *. rewrite IH. reflexivity.
    + cbn [join_with] in *. cbn. rewrite IH. reflexivity.
Qed.

(** No segment contains the separator. *)
Lemma split_segments_no_sep sep s :
  Forall (fun seg => has_char sep seg = false) (split sep s).
Proof.
  induction s as [| c r IH]; [repeat constructor |].
  cbn [split]. destruct (Ascii.eqb c sep) eqn:Hc.
  - constructor; [reflexivity | exact IH].
  - destruct (split sep r) as [| seg segs]; [repeat constructor; cbn; now rewrite Hc |].
    inversion IH as [| ? ? Hseg Hsegs]; subst.
    constructor; [cbn; rewrite Hc; exact Hseg | exact Hsegs].
Qed.

Lemma length_append (a b : string) :
  String.length (a ++ b) = String.length a + String.length b.
Proof. induction a as [| c a IH]; cbn; [reflexivity | now rewrite IH]. Qed.

Lemma endswith_char_append c a d b :
  endswith_char c (a ++ String d b) = endswith_char c (String d b).
Proof.
  induction a as [| x a IH]; [reflexivity |].
  change (String x a ++ String d b)%string with (String x (a ++ String d b)).
  cbn [endswith_char]. rewrite IH.
  destruct a; reflexivity.
Qed.

(** The pattern of a non-empty entry: the entry, a slash unless it ends in
    one, and [pkg/*]. *)
Lemma pkg_pattern_nonempty d :
  nonempty d = true ->
  SavedWorkspace.pkg_pattern d =
  (if endswith_char slash d then d ++ "pkg/*" else d ++ "/pkg/*")%string.
Proof.
  intros Hd. unfold SavedWorkspace.pkg_pattern, os_path_join.
  cbn [fold_left].
  change (startswith "/" "pkg") with false.
  change (startswith "/" "*") with false.
  cbv iota. rewrite Hd. cbn [negb orb].
  assert (Happ : forall a b c : string, ((a ++ b) ++ c = a ++ (b ++ c))%string).
  { intros a b c. induction a as [| x a IH]; cbn; [reflexivity | now rewrite IH]. }
  destruct (endswith_char slash d).
  - change "pkg" with (String "p" "kg") at 1 2.
    rewrite endswith_char_append.
    destruct d as [| c d]; [discriminate |].
    cbn [String.append nonempty negb orb endswith_char].
    change ((if Ascii.eqb "g" slash then true else false)) with false.
    rewrite !Happ. reflexivity.
  - change ("/" ++ "pkg")%string with (String "/" "pkg") at 1 2.
    rewrite endswith_char_append.
    destruct d as [| c d]; [discriminate |].
    cbn [String.append nonempty negb orb endswith_char].
    rewrite !Happ. reflexivity.
Qed.

(** It is longer than ["pkg/*"], the pattern an empty entry would give. *)
Lemma pkg_pattern_length d :
  nonempty d = true -> 5 < String.length (SavedWorkspace.pkg_pattern d).
Proof.
  intros Hd. rewrite (pkg_pattern_nonempty d Hd).
  destruct d as [| c d]; [discriminate |].
  destruct (endswith_char slash (String c d)); rewrite length_append; cbn; lia.
Qed.

Lemma pkg_pattern_not_bare d :
  nonempty d = true ->
  SavedWorkspace.pkg_pattern d <> SavedWorkspace.pkg_pattern "".
Proof.
  intros Hd Heq. pose proof (pkg_pattern_length d Hd) as Hlen.
  rewrite Heq in Hlen. cbn in Hlen. lia.
Qed.

(** ** The candidate files of [timestamp] *)

Section Candidates.

Import SavedWorkspace.

Variable w : World.

Lemma run_glob_then {A} pattern (k : list string -> A) :
  run (found <- glob_glob pattern ;; ret (k found)) w =
  ([EvGlob pattern], Return (k (glob w pattern))).
Proof. reflexivity. Qed.

(** The loop looks up the pattern of each non-empty entry, in order, and
    gathers what the patterns match. *)
Lemma run_for_each_entries segs acc :
  run (for_each segs
         (fun gap_packages d =>
            if nonempty d then
              found <- glob_glob (pkg_pattern d) ;;
              ret ((gap_packages ++ found)%list)
            else ret gap_packages)
         acc) w =
  (map EvGlob (map pkg_pattern (filter nonempty segs)),
   Return (acc ++ flat_map (glob w) (map pkg_pattern (filter nonempty segs)))%list).
Proof.
  revert acc. induction segs as [| d segs IH]; intros acc.
  - cbn [for_each filter map flat_map]. rewrite run_ret, app_nil_r. reflexivity.
  - cbn [for_each filter]. rewrite run_bind.
    destruct (nonempty d).
    + cbn [map flat_map]. rewrite run_glob_then, IH. cbn [fst snd app].
      rewrite <- app_assoc. reflexivity.
    + rewrite run_ret, IH. reflexivity.
Qed.

Lemma run_gap_packages_loop paths :
  run (gap_packages_loop paths) w =
  (map EvGlob (map pkg_pattern (search_path_entries paths)),
   Return (flat_map (glob w) (map pkg_pattern (search_path_entries paths)))).
Proof. unfold gap_packages_loop. rewrite run_for_each_entries. reflexivity. Qed.

Variable im : Imports.

Lemma run_candidate_files :
  run (candidate_files im) w =
  (map EvGlob (glob_patterns im), Return (listed_files im w)).
Proof.
  unfold candidate_files. rewrite run_bind.
  change (run (glob_glob (libgap_pattern im)) w)
    with ([EvGlob (libgap_pattern im)], Return (glob w (libgap_pattern im))).
  cbv beta iota.
  rewrite run_bind, run_gap_packages_loop, run_ret.
  cbn [fst snd app]. rewrite app_nil_r. reflexivity.
Qed.

(** [timestamp] on an empty candidate list. *)
Lemma run_timestamp_no_files :
  listed_files im w = [] ->
  run (timestamp im) w =
  ((map EvGlob (glob_patterns im) ++ [EvPrint no_files_message])%list,
   Return PInf).
Proof.
  intros H. unfold timestamp.
  rewrite run_bind, run_candidate_files, H. reflexivity.
Qed.

(** [timestamp] on a non-empty candidate list. *)
Lemma run_timestamp_some_files :
  listed_files im w <> [] ->
  run (timestamp im) w =
  ((map EvGlob (glob_patterns im) ++
    trace_of (mtimes <- map_io os_path_getmtime (listed_files im w) ;;
              py_max mtimes) w)%list,
   result_of (mtimes <- map_io os_path_getmtime (listed_files im w) ;;
              py_max mtimes) w).
Proof.
  intros H. unfold timestamp.
  rewrite run_bind, run_candidate_files.
  destruct (listed_files im w) as [| f files]; [contradiction |].
  reflexivity.
Qed.

(** When every candidate can be probed, the probes give their times. *)
Lemma run_map_io_probed files ts :
  Forall2 (probed w) files ts ->
  run (map_io os_path_getmtime files) w =
  (map EvGetmtime files, Return (map Fin ts)).
Proof.
  induction 1 as [| p t files ts Hp _ IH]; [reflexivity |].
  cbn [map_io]. rewrite run_bind, (run_getmtime_return _ _ _ Hp).
  cbn [fst snd]. rewrite run_bind, IH, run_ret. cbn [fst snd app map].
  rewrite app_nil_r. reflexivity.
Qed.

(** The first probe that raises ends the probing with its exception. *)
Lemma run_map_io_raise before ts p after e :
  Forall2 (probed w) before ts ->
  getmtime w p = Raise e ->
  run (map_io os_path_getmtime (before ++ p :: after)) w =
  (map EvGetmtime (before ++ [p]), Raise e).
Proof.
  induction 1 as [| q t before ts Hq _ IH]; intros Hp.
  - cbn [app map_io map]. rewrite run_bind, (run_getmtime_raise _ _ _ Hp).
    reflexivity.
  - cbn [app map_io map]. rewrite run_bind, (run_getmtime_return _ _ _ Hq).
    cbn [fst snd]. rewrite run_bind, (IH Hp). reflexivity.
Qed.

(** If the probing returns, every candidate was probed with success. *)
Lemma map_io_return_probed files ms :
  result_of (map_io os_path_getmtime files) w = Return ms ->
  exists ts, ms = map Fin ts /\ Forall2 (probed w) files ts.
Proof.
  revert ms. induction files as [| p files IH]; intros ms H.
  - exists []. split; [| constructor].
    change (Return [] = Return ms) in H. injection H as <-. reflexivity.
  - change (snd (run (map_io os_path_getmtime (p :: files)) w) = Return ms) in H.
    cbn [map_io] in H. rewrite run_bind in H.
    destruct (getmtime w p) as [t | e] eqn:Hp.
    + rewrite (run_getmtime_return _ _ _ Hp) in H. cbn [fst snd] in H.
      rewrite run_bind, (run_split (map_io os_path_getmtime files) w) in H.
      destruct (result_of (map_io os_path_getmtime files) w) as [ms' | e] eqn:Hr;
        [| discriminate].
      destruct (IH ms' eq_refl) as (ts & -> & Hts).
      rewrite run_ret in H. cbn [fst snd] in H.
      injection H as <-.
      exists (t :: ts). split; [reflexivity | constructor; assumption].
    + rewrite (run_getmtime_raise _ _ _ Hp) in H. discriminate.
Qed.

(** The probing makes no directory lookup. *)
Lemma map_io_trace_no_glob files :
  filter is_glob (trace_of (map_io os_path_getmtime files) w) = [].
Proof.
  induction files as [| p files IH]; [reflexivity |].
  change (filter is_glob (fst (run (map_io os_path_getmtime (p :: files)) w)) = []).
  cbn [map_io]. rewrite run_bind.
  destruct (getmtime w p) as [t | e] eqn:Hp.
  - rewrite (run_getmtime_return _ _ _ Hp). cbn [fst snd].
    rewrite run_bind, (run_split (map_io os_path_getmtime files) w).
    destruct (result_of (map_io os_path_getmtime files) w) as [ms' | e].
    + rewrite run_ret. cbn [fst snd app]. rewrite app_nil_r. cbn [filter is_glob].
      exact IH.
    + cbn [fst app filter is_glob]. exact IH.
  - rewrite (run_getmtime_raise _ _ _ Hp). reflexivity.
Qed.

End Candidates.

(** ** [timestamp] *)

Section Timestamp.

Import SavedWorkspace.

Variable im : Imports.
Variable w : World.

Lemma flat_map_all_nil {A B} (f : A -> list B) (l : list A) :
  (forall x, In x l -> f x = []) -> flat_map f l = [].
Proof.
  induction l as [| x l IH]; intros H; [reflexivity |].
  cbn [flat_map]. rewrite (H x (or_introl eq_refl)), IH; [reflexivity |].
  intros y Hy. apply H. right. exact Hy.
Qed.

Lemma filter_is_glob_map patterns :
  filter is_glob (map EvGlob patterns) = map EvGlob patterns.
Proof.
  induction patterns as [| p ps IH]; [reflexivity |].
  cbn [map filter is_glob]. rewrite IH. reflexivity.
Qed.

Lemma run_py_max x rest : run (py_max (x :: rest)) w = ([], Return (max_from x rest)).
Proof. reflexivity. Qed.

Lemma trace_py_max items : trace_of (py_max items) w = [].
Proof. destruct items; reflexivity. Qed.

(** With every candidate probed, [timestamp] is the maximum of the times. *)
Lemma run_timestamp_probed f files t ts :
  listed_files im w = f :: files ->
  Forall2 (probed w) (f :: files) (t :: ts) ->
  run (timestamp im) w =
  ((map EvGlob (glob_patterns im) ++ map EvGetmtime (f :: files))%list,
   Return (max_from (Fin t) (map Fin ts))).
Proof.
  intros Hfiles Hprobed.
  rewrite run_timestamp_some_files by (rewrite Hfiles; discriminate).
  rewrite Hfiles.
  change (trace_of ?m w) with (fst (run m w)).
  change (result_of ?m w) with (snd (run m w)).
  rewrite run_bind, (run_map_io_probed w _ _ Hprobed).
  cbn [map]. rewrite run_py_max. cbn [fst snd]. rewrite app_nil_r. reflexivity.
Qed.

(** C3: when the module's directory has no entries and no entry of the
    search path has a package directory, [timestamp] prints its diagnostic
    and returns positive infinity, without probing any file. *)
Theorem timestamp_no_candidates_prints_and_returns_inf :
  glob w (libgap_pattern im) = [] ->
  (forall d, In d (split semicolon (GAP_ROOT_PATHS im)) ->
             nonempty d = true -> glob w (pkg_pattern d) = []) ->
  result_of (timestamp im) w = Return PInf /\
  In (EvPrint no_files_message) (trace_of (timestamp im) w) /\
  (forall p, ~ In (EvGetmtime p) (trace_of (timestamp im) w)).
Proof.
  intros Hown Hpkg.
  assert (Hnone : listed_files im w = []).
  { unfold listed_files, glob_patterns. cbn [flat_map]. rewrite Hown.
    cbn [app]. apply flat_map_all_nil.
    intros pattern Hin. apply in_map_iff in Hin as (d & <- & Hd).
    unfold search_path_entries in Hd. apply filter_In in Hd as [Hd Hne].
    exact (Hpkg d Hd Hne). }
  pose proof (run_timestamp_no_files w im Hnone) as Hrun.
  change (snd (run (timestamp im) w) = Return PInf /\
          In (EvPrint no_files_message) (fst (run (timestamp im) w)) /\
          (forall p, ~ In (EvGetmtime p) (fst (run (timestamp im) w)))).
  rewrite Hrun. cbn [fst snd]. split; [reflexivity | split].
  - apply in_or_app. right. left. reflexivity.
  - intros p Hin. apply in_app_or in Hin as [Hin | [Hin | []]]; [| discriminate].
    apply in_map_iff in Hin as (x & Hx & _). discriminate.
Qed.

(** C4: for every search-path string, the loop of [timestamp] makes one
    package-directory lookup for each non-empty segment, in order, and none
    for an empty one: it never raises, the pattern of an empty segment is
    never looked up, and the lookups of [timestamp] are the one for the
    module's directory followed by these. *)
Theorem timestamp_lookups_skip_empty_segments (paths : string) :
  run (gap_packages_loop paths) w =
    (map EvGlob (map pkg_pattern (filter nonempty (split semicolon paths))),
     Return (flat_map (glob w)
               (map pkg_pattern (filter nonempty (split semicolon paths))))) /\
  ~ In (EvGlob (pkg_pattern "")) (trace_of (gap_packages_loop paths) w) /\
  filter is_glob (trace_of (timestamp im) w) =
    EvGlob (libgap_pattern im) ::
    map EvGlob (map pkg_pattern
                  (filter nonempty (split semicolon (GAP_ROOT_PATHS im)))).
Proof.
  split; [apply run_gap_packages_loop | split].
  - change (trace_of (gap_packages_loop paths) w)
      with (fst (run (gap_packages_loop paths) w)).
    rewrite run_gap_packages_loop. cbn [fst]. intros Hin.
    apply in_map_iff in Hin as (pattern & Heq & Hin).
    apply in_map_iff in Hin as (d & <- & Hd).
    apply filter_In in Hd as [_ Hne].
    injection Heq as Heq. exact (pkg_pattern_not_bare d Hne Heq).
  - change (trace_of (timestamp im) w) with (fst (run (timestamp im) w)).
    destruct (listed_files im w) as [| f files] eqn:Hfiles.
    + rewrite (run_timestamp_no_files w im Hfiles). cbn [fst].
      rewrite filter_app, filter_is_glob_map. cbn [filter is_glob].
      rewrite app_nil_r. reflexivity.
    + rewrite run_timestamp_some_files by (rewrite Hfiles; discriminate).
      cbn [fst]. rewrite filter_app, filter_is_glob_map.
      change (trace_of ?m w) with (fst (run m w)).
      rewrite run_bind, (run_split (map_io os_path_getmtime _) w).
      destruct (result_of (map_io os_path_getmtime (listed_files im w)) w)
        as [ms | e]; cbn [fst].
      * rewrite filter_app, map_io_trace_no_glob.
        change (fst (run (py_max ms) w)) with (trace_of (py_max ms) w).
        rewrite trace_py_max. rewrite app_nil_r. reflexivity.
      * rewrite map_io_trace_no_glob, app_nil_r. reflexivity.
Qed.

(** C7, as the code has it: the exception of the first probe that fails
    leaves [timestamp] as it is, after the probes of the candidates before
    it; the candidates after it are not probed. *)
Theorem timestamp_propagates_probe_error before ts p after e :
  listed_files im w = (before ++ p :: after)%list ->
  Forall2 (probed w) before ts ->
  getmtime w p = Raise e ->
  run (timestamp im) w =
  ((map EvGlob (glob_patterns im) ++ map EvGetmtime (before ++ [p]))%list,
   Raise e).
Proof.
  intros Hfiles Hbefore Hp.
  rewrite run_timestamp_some_files
    by (rewrite Hfiles; destruct before; discriminate).
  rewrite Hfiles.
  change (trace_of ?m w) with (fst (run m w)).
  change (result_of ?m w) with (snd (run m w)).
  rewrite run_bind, (run_map_io_raise w _ _ _ _ _ Hbefore Hp). reflexivity.
Qed.

End Timestamp.

(** ** Monotonicity of [timestamp] *)

Lemma max_step_mono x1 x2 y1 y2 :
  fle x1 x2 -> fle y1 y2 ->
  fle (if fgt y1 x1 then y1 else x1) (if fgt y2 x2 then y2 else x2).
Proof.
  intros Hx Hy.
  destruct (fgt y1 x1) eqn:H1, (fgt y2 x2) eqn:H2; try assumption.
  - apply fgt_fle in H2. exact (fle_trans _ _ _ Hy H2).
  - destruct (fle_total y2 x2) as [Hle | Hle].
    + apply fgt_fle in Hle. congruence.
    + exact (fle_trans _ _ _ Hx Hle).
Qed.

Lemma max_from_mono l1 l2 :
  Forall2 fle l1 l2 ->
  forall x1 x2, fle x1 x2 -> fle (max_from x1 l1) (max_from x2 l2).
Proof.
  unfold max_from.
  induction 1 as [| y1 y2 l1 l2 Hy _ IH]; intros x1 x2 Hx; [exact Hx |].
  cbn [fold_left]. apply IH. apply max_step_mono; assumption.
Qed.

(** The maximum is at least its first item and at least every other item. *)
Lemma max_from_upper_bound rest :
  forall x, fle x (max_from x rest) /\
            Forall (fun y => fle y (max_from x rest)) rest.
Proof.
  unfold max_from.
  induction rest as [| y rest IH]; intros x.
  - split; [apply fle_refl | constructor].
  - cbn [fold_left].
    destruct (IH (if fgt y x then y else x)) as [Hfirst Hrest].
    assert (Hx : fle x (if fgt y x then y else x)).
    { destruct (fgt y x) eqn:Hgt; [| apply fle_refl].
      destruct (fle_total x y) as [H | H]; [exact H |].
      apply fgt_fle in H. congruence. }
    assert (Hy : fle y (if fgt y x then y else x)).
    { destruct (fgt y x) eqn:Hgt; [apply fle_refl | now apply fgt_fle]. }
    split; [exact (fle_trans _ _ _ Hx Hfirst) |].
    constructor; [exact (fle_trans _ _ _ Hy Hfirst) | exact Hrest].
Qed.

Lemma probed_not_older w w' files ts :
  not_older w w' ->
  Forall2 (probed w) files ts ->
  exists ts', Forall2 (probed w') files ts' /\ Forall2 Z.le ts ts'.
Proof.
  intros [_ Hmt]. induction 1 as [| p t files ts Hp _ (ts' & Hts' & Hle)].
  - exists []. split; constructor.
  - destruct (Hmt p t Hp) as (t' & Hp' & Ht).
    exists (t' :: ts'). split; constructor; assumption.
Qed.

Lemma listed_files_not_older im w w' :
  not_older w w' -> listed_files im w' = listed_files im w.
Proof.
  intros [Hglob _]. unfold listed_files.
  induction (glob_patterns im) as [| pattern ps IH]; [reflexivity |].
  cbn [flat_map]. rewrite Hglob, IH. reflexivity.
Qed.

(** If [timestamp] returns in a world, it returns in every world that is
    not older, with a result that is not smaller. *)
Lemma timestamp_not_older_mono im w w' r :
  not_older w w' ->
  result_of (SavedWorkspace.timestamp im) w = Return r ->
  exists r', result_of (SavedWorkspace.timestamp im) w' = Return r' /\ fle r r'.
Proof.
  intros Hnot Hr.
  pose proof (listed_files_not_older im w w' Hnot) as Hsame.
  change (snd (run (SavedWorkspace.timestamp im) w) = Return r) in Hr.
  change (exists r', snd (run (SavedWorkspace.timestamp im) w') = Return r' /\
                     fle r r').
  destruct (listed_files im w) as [| f files] eqn:Hfiles.
  - rewrite (run_timestamp_no_files w im Hfiles) in Hr.
    rewrite (run_timestamp_no_files w' im Hsame).
    cbn [snd] in *. injection Hr as <-. exists PInf. split; [reflexivity | exact I].
  - rewrite run_timestamp_some_files in Hr by (rewrite Hfiles; discriminate).
    rewrite Hfiles in Hr. cbn [snd] in Hr.
    change (result_of ?m w) with (snd (run m w)) in Hr.
    rewrite run_bind, (run_split (map_io os_path_getmtime (f :: files)) w) in Hr.
    destruct (result_of (map_io os_path_getmtime (f :: files)) w)
      as [ms | e] eqn:Hms; [| discriminate].
    destruct (map_io_return_probed w _ _ Hms) as (ts & -> & Hts).
    destruct (probed_not_older w w' _ _ Hnot Hts) as (ts' & Hts' & Hle).
    inversion Hle as [| t t' tl tl' Ht Htl]; subst; [inversion Hts |].
    rewrite (run_timestamp_probed im w' f files t' tl' Hsame Hts').
    cbn [map] in Hr. rewrite run_py_max in Hr. cbn [fst snd] in Hr.
    injection Hr as <-.
    exists (max_from (Fin t') (map Fin tl')). split; [reflexivity |].
    apply max_from_mono; [| exact Ht].
    clear - Htl. induction Htl; constructor; assumption.
Qed.

Lemma probed_In w files ts p t :
  Forall2 (probed w) files ts -> In p files -> getmtime w p = Return t -> In t ts.
Proof.
  induction 1 as [| q tq files ts Hq _ IH]; intros Hin Hp; [contradiction |].
  destruct Hin as [-> | Hin].
  - left. unfold probed in Hq. congruence.
  - right. exact (IH Hin Hp).
Qed.

(** What [timestamp] returns is at least the modification time of every
    candidate. *)
Lemma timestamp_at_least_every_candidate im w r p t :
  result_of (SavedWorkspace.timestamp im) w = Return r ->
  In p (listed_files im w) ->
  getmtime w p = Return t ->
  fle (Fin t) r.
Proof.
  intros Hr Hin Hp.
  change (snd (run (SavedWorkspace.timestamp im) w) = Return r) in Hr.
  destruct (listed_files im w) as [| f files] eqn:Hfiles; [contradiction |].
  rewrite run_timestamp_some_files in Hr by (rewrite Hfiles; discriminate).
  rewrite Hfiles in Hr. cbn [snd] in Hr.
  change (result_of ?m w) with (snd (run m w)) in Hr.
  rewrite run_bind, (run_split (map_io os_path_getmtime (f :: files)) w) in Hr.
  destruct (result_of (map_io os_path_getmtime (f :: files)) w)
    as [ms | e] eqn:Hms; [| discriminate].
  destruct (map_io_return_probed w _ _ Hms) as (ts & -> & Hts).
  pose proof (probed_In w _ _ p t Hts Hin Hp) as Ht.
  destruct ts as [| t0 tl]; [contradiction |].
  cbn [map] in Hr. rewrite run_py_max in Hr. cbn [fst snd] in Hr.
  injection Hr as <-.
  destruct (max_from_upper_bound (map Fin tl) (Fin t0)) as [Hfirst Hrest].
  destruct Ht as [<- | Ht]; [exact Hfirst |].
  rewrite Forall_forall in Hrest. apply Hrest. apply in_map. exact Ht.
Qed.

Lemma touch_not_older w f t t' :
  getmtime w f = Return t -> (t <= t')%Z -> not_older w (touch f t' w).
Proof.
  intros Hf Ht. split; [reflexivity |].
  intros p tp Hp. cbn [touch getmtime].
  destruct (String.eqb_spec p f) as [-> | Hne].
  - rewrite Hp. exists t'. split; [reflexivity |]. congruence.
  - exists tp. split; [exact Hp | lia].
Qed.

(** C8: touching a file, that is giving it a modification time that is not
    earlier than the one it had, between two calls of [timestamp] does not
    decrease the result: if the first call returns, so does the second, with
    a timestamp that is greater or equal.  This holds for every file, those
    of the module's directory among them. *)
Theorem timestamp_monotone_under_touch im w f t t' first :
  getmtime w f = Return t ->
  (t <= t')%Z ->
  result_of (SavedWorkspace.timestamp im) w = Return first ->
  exists second,
    result_of (SavedWorkspace.timestamp im) (touch f t' w) = Return second /\
    fle first second.
Proof.
  intros Hf Ht Hfirst.
  exact (timestamp_not_older_mono im w (touch f t' w) first
           (touch_not_older w f t t' Hf Ht) Hfirst).
Qed.

(** ** [find_gap] *)

Section Locator.

Variable w : World.

Lemma run_candidate_root_which exe :
  which w "gap" = Some exe ->
  run Env.candidate_root w = ([EvWhich "gap"], Return (Path_parent (Path_of exe))).
Proof.
  intros H. unfold Env.candidate_root. rewrite run_bind.
  change (run (os_which "gap") w) with ([EvWhich "gap"], Return (which w "gap")).
  rewrite H. reflexivity.
Qed.

Lemma run_candidate_root_override s :
  which w "gap" = None -> environ_get w "GAP_ROOT" = Some s ->
  run Env.candidate_root w =
  ([EvWhich "gap"; EvEnviron "GAP_ROOT"], Return (Path_of s)).
Proof.
  intros Hw He. unfold Env.candidate_root. rewrite run_bind.
  change (run (os_which "gap") w) with ([EvWhich "gap"], Return (which w "gap")).
  rewrite Hw. cbv beta iota. rewrite run_bind.
  change (run (os_environ_get "GAP_ROOT") w)
    with ([EvEnviron "GAP_ROOT"], Return (environ_get w "GAP_ROOT")).
  rewrite He. reflexivity.
Qed.

Lemma run_candidate_root_none :
  which w "gap" = None -> environ_get w "GAP_ROOT" = None ->
  run Env.candidate_root w =
  ([EvWhich "gap"; EvEnviron "GAP_ROOT"], Raise (ValueError Env.gap_not_found)).
Proof.
  intros Hw He. unfold Env.candidate_root. rewrite run_bind.
  change (run (os_which "gap") w) with ([EvWhich "gap"], Return (which w "gap")).
  rewrite Hw. cbv beta iota. rewrite run_bind.
  change (run (os_environ_get "GAP_ROOT") w)
    with ([EvEnviron "GAP_ROOT"], Return (environ_get w "GAP_ROOT")).
  rewrite He. reflexivity.
Qed.

(** A root comes from the search path or from the override variable. *)
Lemma candidate_root_sources root :
  result_of Env.candidate_root w = Return root ->
  (exists exe, which w "gap" = Some exe /\ root = Path_parent (Path_of exe)) \/
  (which w "gap" = None /\
   exists s, environ_get w "GAP_ROOT" = Some s /\ root = Path_of s).
Proof.
  change (result_of Env.candidate_root w)
    with (snd (run Env.candidate_root w)).
  destruct (which w "gap") as [exe |] eqn:Hw.
  - rewrite (run_candidate_root_which exe Hw). cbn [snd]. intros [= <-].
    left. exists exe. split; reflexivity.
  - destruct (environ_get w "GAP_ROOT") as [s |] eqn:He.
    + rewrite (run_candidate_root_override s Hw He). cbn [snd]. intros [= <-].
      right. split; [reflexivity |]. exists s. split; reflexivity.
    + rewrite (run_candidate_root_none Hw He). discriminate.
Qed.

Lemma Path_exists_answer_true path :
  Path_exists_answer w path = Return true <-> path_exists w path = true.
Proof.
  unfold Path_exists_answer, path_exists.
  destruct (path_stat w path) as [u | [code f | msg | msg]];
    try destruct (ignored_errno code); split; intros H; try discriminate; reflexivity.
Qed.

(** A [stat] that fails with an ignored [errno]: the path is not there. *)
Lemma Path_exists_answer_missing path code filename :
  path_stat w path = Raise (OSError code filename) ->
  ignored_errno code = true ->
  Path_exists_answer w path = Return false.
Proof. intros H Hc. unfold Path_exists_answer. rewrite H, Hc. reflexivity. Qed.

(** A [stat] that fails with another [errno]: the error is raised again. *)
Lemma Path_exists_answer_refused path code filename :
  path_stat w path = Raise (OSError code filename) ->
  ignored_errno code = false ->
  Path_exists_answer w path = Raise (OSError code filename).
Proof. intros H Hc. unfold Path_exists_answer. rewrite H, Hc. reflexivity. Qed.

Lemma run_py_assert_debug (p : Path) msg :
  py_debug w = true ->
  run (py_assert (Path_exists p) msg) w =
  ([EvExists (Path_str p)],
   match Path_exists_answer w (Path_str p) with
   | Return true => Return tt
   | Return false => Raise (AssertionError msg)
   | Raise e => Raise e
   end).
Proof.
  intros Hd. unfold run, py_assert. rewrite Hd.
  change ((b <- Path_exists p ;; if b then ret tt else raise (AssertionError msg)) w)
    with (run (b <- Path_exists p ;; if b then ret tt else raise (AssertionError msg)) w).
  rewrite run_bind.
  change (run (Path_exists p) w)
    with ([EvExists (Path_str p)], Path_exists_answer w (Path_str p)).
  destruct (Path_exists_answer w (Path_str p)) as [[|] | e]; reflexivity.
Qed.

Lemma run_py_assert_optimized (cond : IO bool) msg :
  py_debug w = false -> run (py_assert cond msg) w = ([], Return tt).
Proof. intros Hd. unfold run, py_assert. rewrite Hd. reflexivity. Qed.

(** [find_gap] after its candidate root, with assertions enabled. *)
Lemma result_find_gap_debug root :
  py_debug w = true ->
  result_of Env.candidate_root w = Return root ->
  result_of Env.find_gap w =
  match Path_exists_answer w (Path_str (joinpath root ["lib"; "init.g"])) with
  | Return true =>
      match Path_exists_answer w (Path_str (joinpath root ["pkg"])) with
      | Return true => Return root
      | Return false => Raise (AssertionError (Env.pkg_not_found root))
      | Raise e => Raise e
      end
  | Return false => Raise (AssertionError (Env.lib_not_found root))
  | Raise e => Raise e
  end.
Proof.
  intros Hd Hroot.
  change (result_of Env.find_gap w) with (snd (run Env.find_gap w)).
  unfold Env.find_gap.
  rewrite run_bind, (run_split Env.candidate_root w), Hroot.
  rewrite run_bind, (run_py_assert_debug _ _ Hd).
  destruct (Path_exists_answer w (Path_str (joinpath root ["lib"; "init.g"])))
    as [[|] | e]; [| reflexivity | reflexivity].
  cbv beta iota. rewrite run_bind, (run_py_assert_debug _ _ Hd).
  destruct (Path_exists_answer w (Path_str (joinpath root ["pkg"])))
    as [[|] | e]; reflexivity.
Qed.

(** C5, as the code has it: with no launcher on the search path and the
    override variable unset, [find_gap] raises a [ValueError] right after
    these two look-ups; its message tells to add the GAP folder to the
    search path or to set the override variable.  No path is returned. *)
Theorem find_gap_not_found_raises_ValueError :
  which w "gap" = None ->
  environ_get w "GAP_ROOT" = None ->
  run Env.find_gap w =
    ([EvWhich "gap"; EvEnviron "GAP_ROOT"], Raise (ValueError Env.gap_not_found)) /\
  exn_class (ValueError Env.gap_not_found) = "ValueError" /\
  contains "add the GAP folder to the PATH" Env.gap_not_found = true /\
  contains "set the GAP_ROOT environment variable" Env.gap_not_found = true.
Proof.
  intros Hw He. split; [| repeat split; reflexivity].
  unfold Env.find_gap. rewrite run_bind, (run_candidate_root_none Hw He).
  reflexivity.
Qed.

(** C6, as the code has it: with assertions enabled, for every candidate
    root of [find_gap] in [env.py], a missing [lib/init.g] raises an
    [AssertionError] that names the [lib] folder with its [init.g] file and
    the folder it was expected in; otherwise a missing [pkg] raises an
    [AssertionError] that names the packages folder and where it was
    expected; a root is returned only when both exist.  A path is missing
    when its [stat] fails with [ENOENT], [ENOTDIR], [EBADF] or [ELOOP]; when
    the [stat] fails with another [OSError], such as the [PermissionError]
    of a directory that may not be searched, that error leaves [find_gap]
    in place of the [AssertionError]. *)
Theorem find_gap_validates_root root :
  py_debug w = true ->
  result_of Env.candidate_root w = Return root ->
  (forall code filename,
      path_stat w (Path_str (joinpath root ["lib"; "init.g"]))
        = Raise (OSError code filename) ->
      ignored_errno code = true ->
      result_of Env.find_gap w = Raise (AssertionError (Env.lib_not_found root))) /\
  (path_exists w (Path_str (joinpath root ["lib"; "init.g"])) = true ->
   forall code filename,
     path_stat w (Path_str (joinpath root ["pkg"])) = Raise (OSError code filename) ->
     ignored_errno code = true ->
     result_of Env.find_gap w = Raise (AssertionError (Env.pkg_not_found root))) /\
  (forall r, result_of Env.find_gap w = Return r ->
             r = root /\
             path_exists w (Path_str (joinpath root ["lib"; "init.g"])) = true /\
             path_exists w (Path_str (joinpath root ["pkg"])) = true) /\
  (forall code filename,
      path_stat w (Path_str (joinpath root ["lib"; "init.g"]))
        = Raise (OSError code filename) ->
      ignored_errno code = false ->
      result_of Env.find_gap w = Raise (OSError code filename)) /\
  (path_exists w (Path_str (joinpath root ["lib"; "init.g"])) = true ->
   forall code filename,
     path_stat w (Path_str (joinpath root ["pkg"])) = Raise (OSError code filename) ->
     ignored_errno code = false ->
     result_of Env.find_gap w = Raise (OSError code filename)) /\
  Env.lib_not_found root =
    ("Folder `lib` with the GAP `init.g` file not found. Expected it in " ++
     Path_str (joinpath root ["lib"]))%string /\
  Env.pkg_not_found root =
    ("Folder with the GAP packages not found. Expected it in " ++
     Path_str (joinpath root ["pkg"]))%string.
Proof.
  intros Hd Hroot. rewrite (result_find_gap_debug root Hd Hroot).
  split; [| split; [| split; [| split; [| split; [| split; reflexivity]]]]].
  - intros code filename Hstat Hcode.
    rewrite (Path_exists_answer_missing _ _ _ Hstat Hcode). reflexivity.
  - intros Hinit code filename Hstat Hcode.
    rewrite (proj2 (Path_exists_answer_true _) Hinit).
    rewrite (Path_exists_answer_missing _ _ _ Hstat Hcode). reflexivity.
  - intros r Hr.
    destruct (Path_exists_answer w (Path_str (joinpath root ["lib"; "init.g"])))
      as [[|] | e] eqn:Hinit; try discriminate.
    destruct (Path_exists_answer w (Path_str (joinpath root ["pkg"])))
      as [[|] | e] eqn:Hpkg; try discriminate.
    apply Path_exists_answer_true in Hinit, Hpkg.
    split; [congruence | split; assumption].
  - intros code filename Hstat Hcode.
    rewrite (Path_exists_answer_refused _ _ _ Hstat Hcode). reflexivity.
  - intros Hinit code filename Hstat Hcode.
    rewrite (proj2 (Path_exists_answer_true _) Hinit).
    rewrite (Path_exists_answer_refused _ _ _ Hstat Hcode). reflexivity.
Qed.

(** Under [python -O] the two checks are gone: every candidate root is
    returned. *)
Lemma find_gap_optimized_returns_candidate root :
  py_debug w = false ->
  result_of Env.candidate_root w = Return root ->
  result_of Env.find_gap w = Return root.
Proof.
  intros Hd Hroot.
  change (snd (run Env.find_gap w) = Return root).
  unfold Env.find_gap.
  rewrite run_bind, (run_split Env.candidate_root w), Hroot.
  rewrite run_bind, (run_py_assert_optimized _ _ Hd). cbv beta iota.
  rewrite run_bind, (run_py_assert_optimized _ _ Hd). reflexivity.
Qed.

(** [GAP_ROOT_PATHS] set to a non-empty value: the value is taken and
    [find_gap] is not run. *)
Lemma GAP_ROOT_PATHS_nonempty_value s :
  environ_get w "GAP_ROOT_PATHS" = Some s -> nonempty s = true ->
  run Env.GAP_ROOT_PATHS w = ([EvEnviron "GAP_ROOT_PATHS"], Return s).
Proof.
  intros He Hs. unfold Env.GAP_ROOT_PATHS. rewrite run_bind.
  change (run (os_environ_get "GAP_ROOT_PATHS") w)
    with ([EvEnviron "GAP_ROOT_PATHS"], Return (environ_get w "GAP_ROOT_PATHS")).
  rewrite He. cbn [truthy]. rewrite Hs. reflexivity.
Qed.

(** [GAP_ROOT_PATHS] unset, or set to the empty string: [find_gap] is run. *)
Lemma GAP_ROOT_PATHS_falls_back :
  truthy (environ_get w "GAP_ROOT_PATHS") = false ->
  run Env.GAP_ROOT_PATHS w =
  (EvEnviron "GAP_ROOT_PATHS" :: trace_of Env.find_gap w,
   match result_of Env.find_gap w with
   | Return gap_root => Return (as_posix gap_root)
   | Raise e => Raise e
   end).
Proof.
  intros Hv. unfold Env.GAP_ROOT_PATHS. rewrite run_bind.
  change (run (os_environ_get "GAP_ROOT_PATHS") w)
    with ([EvEnviron "GAP_ROOT_PATHS"], Return (environ_get w "GAP_ROOT_PATHS")).
  cbv beta iota. rewrite Hv.
  rewrite run_bind, (run_split Env.find_gap w).
  destruct (result_of Env.find_gap w) as [gap_root | e]; [| reflexivity].
  rewrite run_ret. cbn [fst snd app]. rewrite app_nil_r. reflexivity.
Qed.

End Locator.

(** ** The code at work in the example worlds *)

Import SavedWorkspace.

(** The package installed next to a GAP with one package: the newest
    candidate decides. *)
Example timestamp_installed :
  run (timestamp installed_imports) installed =
  ([EvGlob "/site/sage_libgap/*"; EvGlob "/opt/gap/pkg/*"; EvGlob "/nowhere/pkg/*";
    EvGetmtime "/site/sage_libgap/env.py"; EvGetmtime "/site/sage_libgap/libgap.so";
    EvGetmtime "/opt/gap/pkg/smallsemi"],
   Return (Fin 9)).
Proof. reflexivity. Qed.

Example workspace_older_is_stale :
  result_of (workspace installed_imports "w0") installed = Return ("/ws/w0", false).
Proof. reflexivity. Qed.

Example split_search_path :
  split semicolon ";/opt/gap;;/nowhere;" = [""; "/opt/gap"; ""; "/nowhere"; ""].
Proof. reflexivity. Qed.

Example find_gap_installed :
  run Env.find_gap installed =
  ([EvWhich "gap"; EvExists "/opt/gap/lib/init.g"; EvExists "/opt/gap/pkg"],
   Return (Path_of "/opt/gap")).
Proof. reflexivity. Qed.

(** The build-time [find_gap] of [setup.py] checks [.libs] and [build/gap]
    and accepts a root without [lib/init.g] and [pkg]. *)
Example setup_find_gap_build_tree :
  result_of Setup.find_gap build_tree = Return (Path_of "/src/gap") /\
  path_exists build_tree "/src/gap/lib/init.g" = false /\
  result_of Env.find_gap build_tree =
    Raise (AssertionError
             "Folder `lib` with the GAP `init.g` file not found. Expected it in /src/gap/lib").
Proof. repeat split; reflexivity. Qed.

(** Without assertions an empty directory is returned as the root. *)
Example find_gap_empty_root_optimized :
  result_of Env.find_gap empty_root_optimized = Return (Path_of "/tmp/empty").
Proof.
  apply find_gap_optimized_returns_candidate; reflexivity.
Qed.

(** ** The theorems at concrete inputs *)

Lemma workspace_fresh_at_boundary :
  getmtime installed "/ws/w1" = Return 9%Z /\
  result_of (timestamp installed_imports) installed = Return (Fin 9) /\
  result_of (workspace installed_imports "w1") installed = Return ("/ws/w1", true).
Proof.
  split; [reflexivity | split; [reflexivity |]].
  exact (proj2 (workspace_fresh_iff_mtime_ge_timestamp
                  installed_imports installed "w1" 9%Z (Fin 9) eq_refl eq_refl)
               eq_refl).
Defined.

Lemma workspace_missing_in_bare_world :
  getmtime bare "/ws/w1" = Raise (OSError ENOENT "/ws/w1") /\
  result_of (workspace installed_imports "w1") bare = Return ("/ws/w1", false) /\
  trace_of (workspace installed_imports "w1") bare = [EvGetmtime "/ws/w1"].
Proof.
  split; [reflexivity |].
  exact (workspace_missing_file_not_fresh installed_imports bare "w1" "/ws/w1" eq_refl).
Defined.

Lemma workspace_permission_denied :
  getmtime installed "/ws/locked" = Raise (OSError EACCES "/ws/locked") /\
  result_of (workspace installed_imports "locked") installed =
    Return ("/ws/locked", false) /\
  (forall e, result_of (workspace installed_imports "locked") installed <> Raise e).
Proof.
  split; [reflexivity |].
  exact (workspace_any_OSError_not_fresh
           installed_imports installed "locked" EACCES "/ws/locked" eq_refl).
Defined.

Lemma timestamp_bare_world :
  glob bare (libgap_pattern installed_imports) = [] /\
  result_of (timestamp installed_imports) bare = Return PInf /\
  In (EvPrint no_files_message) (trace_of (timestamp installed_imports) bare) /\
  (forall p, ~ In (EvGetmtime p) (trace_of (timestamp installed_imports) bare)).
Proof.
  split; [reflexivity |].
  exact (timestamp_no_candidates_prints_and_returns_inf
           installed_imports bare eq_refl (fun d _ _ => eq_refl)).
Defined.

Lemma timestamp_lookups_installed :
  filter is_glob (trace_of (timestamp installed_imports) installed) =
  [EvGlob "/site/sage_libgap/*"; EvGlob "/opt/gap/pkg/*"; EvGlob "/nowhere/pkg/*"].
Proof.
  exact (proj2 (proj2 (timestamp_lookups_skip_empty_segments
                         installed_imports installed ""))).
Defined.

Lemma find_gap_bare_world :
  which bare "gap" = None /\ environ_get bare "GAP_ROOT" = None /\
  run Env.find_gap bare =
    ([EvWhich "gap"; EvEnviron "GAP_ROOT"], Raise (ValueError Env.gap_not_found)).
Proof.
  split; [reflexivity | split; [reflexivity |]].
  exact (proj1 (find_gap_not_found_raises_ValueError bare eq_refl eq_refl)).
Defined.

Lemma find_gap_root_without_pkg :
  (py_debug no_pkg_root = true /\
   result_of Env.candidate_root no_pkg_root = Return (Path_of "/srv/gap") /\
   path_exists no_pkg_root "/srv/gap/lib/init.g" = true /\
   path_stat no_pkg_root "/srv/gap/pkg" = Raise (OSError ENOENT "/srv/gap/pkg") /\
   result_of Env.find_gap no_pkg_root =
     Raise (AssertionError
              "Folder with the GAP packages not found. Expected it in /srv/gap/pkg")) /\
  (py_debug locked_root = true /\
   result_of Env.candidate_root locked_root = Return (Path_of "/root/gap") /\
   path_stat locked_root "/root/gap/lib/init.g" =
     Raise (OSError EACCES "/root/gap/lib/init.g") /\
   result_of Env.find_gap locked_root =
     Raise (OSError EACCES "/root/gap/lib/init.g")).
Proof.
  split.
  - repeat (split; [reflexivity |]).
    exact (proj1 (proj2 (find_gap_validates_root
                           no_pkg_root (Path_of "/srv/gap") eq_refl eq_refl))
                 eq_refl ENOENT "/srv/gap/pkg" eq_refl eq_refl).
  - repeat (split; [reflexivity |]).
    exact (proj1 (proj2 (proj2 (proj2 (find_gap_validates_root
                           locked_root (Path_of "/root/gap") eq_refl eq_refl))))
                 EACCES "/root/gap/lib/init.g" eq_refl eq_refl).
Defined.

Lemma timestamp_vanished_raises :
  listed_files installed_imports vanished =
    ([] ++ "/site/sage_libgap/env.py" ::
           ["/site/sage_libgap/libgap.so"; "/opt/gap/pkg/smallsemi"])%list /\
  getmtime vanished "/site/sage_libgap/env.py" =
    Raise (OSError ENOENT "/site/sage_libgap/env.py") /\
  run (timestamp installed_imports) vanished =
    ([EvGlob "/site/sage_libgap/*"; EvGlob "/opt/gap/pkg/*"; EvGlob "/nowhere/pkg/*";
      EvGetmtime "/site/sage_libgap/env.py"],
     Raise (OSError ENOENT "/site/sage_libgap/env.py")).
Proof.
  split; [reflexivity | split; [reflexivity |]].
  exact (timestamp_propagates_probe_error
           installed_imports vanished [] [] "/site/sage_libgap/env.py"
           ["/site/sage_libgap/libgap.so"; "/opt/gap/pkg/smallsemi"]
           (OSError ENOENT "/site/sage_libgap/env.py")
           eq_refl (Forall2_nil _) eq_refl).
Defined.

Lemma timestamp_after_touching_env_py :
  getmtime installed "/site/sage_libgap/env.py" = Return 5%Z /\
  result_of (timestamp installed_imports) installed = Return (Fin 9) /\
  exists second,
    result_of (timestamp installed_imports)
              (touch "/site/sage_libgap/env.py" 12 installed) = Return second /\
    fle (Fin 9) second.
Proof.
  split; [reflexivity | split; [reflexivity |]].
  refine (timestamp_monotone_under_touch
            installed_imports installed "/site/sage_libgap/env.py" 5%Z 12%Z (Fin 9)
            eq_refl _ eq_refl).
  discriminate.
Defined.

(** ** Departures from the specification *)

(** C5: in a world with no launcher and no override variable, [find_gap]
    does not fail with a [ConfigurationError]: what it raises is a
    [ValueError]. *)
Lemma find_gap_not_found_is_not_ConfigurationError :
  which bare "gap" = None /\ environ_get bare "GAP_ROOT" = None /\
  result_of Env.find_gap bare = Raise (ValueError Env.gap_not_found) /\
  ~ fails_with_class "ConfigurationError" Env.find_gap bare.
Proof.
  repeat (split; [reflexivity |]).
  intros (e & He & Hclass).
  change (@Raise Path (ValueError Env.gap_not_found) = Raise e) in He.
  injection He as <-. discriminate Hclass.
Qed.

(** C6: with the override variable pointing to an empty directory,
    [find_gap] does not fail with a [ConfigurationError]: what it raises is
    an [AssertionError]. *)
Lemma find_gap_empty_root_is_not_ConfigurationError :
  environ_get empty_root "GAP_ROOT" = Some "/tmp/empty" /\
  path_exists empty_root "/tmp/empty/lib/init.g" = false /\
  result_of Env.find_gap empty_root =
    Raise (AssertionError
             "Folder `lib` with the GAP `init.g` file not found. Expected it in /tmp/empty/lib") /\
  ~ fails_with_class "ConfigurationError" Env.find_gap empty_root.
Proof.
  repeat (split; [reflexivity |]).
  intros (e & He & Hclass).
  change (@Raise Path (AssertionError (Env.lib_not_found (Path_of "/tmp/empty")))
          = Raise e) in He.
  injection He as <-. discriminate Hclass.
Qed.

(** C7: a candidate that is listed and gone when probed makes [timestamp]
    neither return a value computed from the other candidates nor raise a
    [FilesystemRaceError]: the [FileNotFoundError] of the probe comes out,
    and out of [workspace] too. *)
Lemma timestamp_vanished_candidate_not_tolerated :
  In "/site/sage_libgap/env.py" (listed_files installed_imports vanished) /\
  getmtime vanished "/site/sage_libgap/env.py" =
    Raise (OSError ENOENT "/site/sage_libgap/env.py") /\
  ~ ((exists t, result_of (timestamp installed_imports) vanished = Return t) \/
     fails_with_class "FilesystemRaceError" (timestamp installed_imports) vanished) /\
  result_of (workspace installed_imports "w1") vanished =
    Raise (OSError ENOENT "/site/sage_libgap/env.py").
Proof.
  split; [left; reflexivity | split; [reflexivity | split; [| reflexivity]]].
  assert (Hres : result_of (timestamp installed_imports) vanished =
                 Raise (OSError ENOENT "/site/sage_libgap/env.py")) by reflexivity.
  intros [(t & Ht) | (e & He & Hclass)].
  - rewrite Hres in Ht. discriminate Ht.
  - rewrite Hres in He. injection He as <-. discriminate Hclass.
Qed.

(** C9: [GAP_ROOT_PATHS] set to the empty string does not bypass
    [find_gap].  With no GAP to be found, the [ValueError] of [find_gap]
    comes out; with GAP installed, the value is the root [find_gap] found
    and not the value of the variable. *)
Theorem GAP_ROOT_PATHS_empty_value_runs_find_gap :
  environ_get empty_search_path "GAP_ROOT_PATHS" = Some "" /\
  run Env.GAP_ROOT_PATHS empty_search_path =
    ([EvEnviron "GAP_ROOT_PATHS"; EvWhich "gap"; EvEnviron "GAP_ROOT"],
     Raise (ValueError Env.gap_not_found)) /\
  environ_get empty_search_path_installed "GAP_ROOT_PATHS" = Some "" /\
  run Env.GAP_ROOT_PATHS empty_search_path_installed =
    ([EvEnviron "GAP_ROOT_PATHS"; EvWhich "gap";
      EvExists "/opt/gap/lib/init.g"; EvExists "/opt/gap/pkg"],
     Return "/opt/gap").
Proof. repeat split; reflexivity. Qed.

(** A non-empty value, as in the installed world, is taken as it is. *)
Example GAP_ROOT_PATHS_installed :
  run Env.GAP_ROOT_PATHS installed = ([EvEnviron "GAP_ROOT_PATHS"], Return "/opt/gap;").
Proof. apply GAP_ROOT_PATHS_nonempty_value; reflexivity. Qed.

(** * More of the code *)

(** ** Occurrences and slices of strings *)

Lemma string_app_assoc (a b c : string) : ((a ++ b) ++ c = a ++ (b ++ c))%string.
Proof. induction a as [| x a IH]; cbn; [reflexivity | now rewrite IH]. Qed.

Lemma string_app_nil_r (a : string) : (a ++ "")%string = a.
Proof. induction a as [| x a IH]; cbn; [reflexivity | now rewrite IH]. Qed.

Lemma prefix_cons c p d s :
  String.prefix (String c p) (String d s) =
  if Ascii.eqb c d then String.prefix p s else false.
Proof.
  cbn [String.prefix].
  destruct (Ascii.ascii_dec c d) as [-> | Hne].
  - rewrite Ascii.eqb_refl. reflexivity.
  - destruct (Ascii.eqb_spec c d); [contradiction | reflexivity].
Qed.

Lemma prefix_app p x : String.prefix p (p ++ x) = true.
Proof.
  induction p as [| c p IH]; [destruct x; reflexivity |].
  change (String c p ++ x)%string with (String c (p ++ x)).
  rewrite prefix_cons, Ascii.eqb_refl. exact IH.
Qed.

Lemma prefix_length p s :
  String.prefix p s = true -> String.length p <= String.length s.
Proof.
  revert s. induction p as [| c p IH]; intros s H; [cbn; lia |].
  destruct s as [| d s]; [discriminate |].
  rewrite prefix_cons in H. destruct (Ascii.eqb c d); [| discriminate].
  cbn. apply IH in H. lia.
Qed.

(** Whether [p] starts a string is decided within the first [length p]
    characters. *)
Lemma prefix_app_short p a b :
  String.length p <= String.length a ->
  String.prefix p (a ++ b) = String.prefix p a.
Proof.
  revert a. induction p as [| c p IH]; intros a Hlen.
  - destruct a, b; reflexivity.
  - destruct a as [| d a]; [cbn in Hlen; lia |].
    change (String d a ++ b)%string with (String d (a ++ b)).
    rewrite !prefix_cons. destruct (Ascii.eqb c d); [| reflexivity].
    apply IH. cbn in Hlen. lia.
Qed.

Lemma but_last_snoc s :
  nonempty s = true -> exists c, s = (but_last s ++ String c "")%string.
Proof.
  induction s as [| x s IH]; [discriminate |]. intros _.
  destruct s as [| y s].
  - exists x. reflexivity.
  - destruct (IH eq_refl) as (c & Hc). exists c.
    change (but_last (String x (String y s))) with (String x (but_last (String y s))).
    cbn [String.append]. rewrite <- Hc. reflexivity.
Qed.

Lemma length_but_last s :
  nonempty s = true -> String.length s = S (String.length (but_last s)).
Proof.
  intros H. destruct (but_last_snoc s H) as (c & Hc).
  rewrite Hc at 1. rewrite length_append. cbn. lia.
Qed.

(** [str_find] is [-1], or an index at which the needle fits. *)
Lemma str_find_range s needle :
  str_find s needle = (-1)%Z \/
  (0 <= str_find s needle /\
   str_find s needle + Z.of_nat (String.length needle)
   <= Z.of_nat (String.length s))%Z.
Proof.
  induction s as [| c s IH]; cbn [str_find].
  - destruct (String.prefix needle "") eqn:Hp; [| left; reflexivity].
    right. apply prefix_length in Hp. cbn in *. lia.
  - destruct (String.prefix needle (String c s)) eqn:Hp.
    + right. apply prefix_length in Hp. cbn [String.length] in *. lia.
    + destruct (Z.ltb_spec (str_find s needle) 0); [left; reflexivity |].
      right. destruct IH as [IH | IH]; [lia |].
      cbn [String.length]. lia.
Qed.

(** A needle that does not occur is not found. *)
Lemma str_find_absent s needle :
  contains needle s = false -> str_find s needle = (-1)%Z.
Proof.
  induction s as [| c s IH]; cbn [contains str_find]; intros H;
    apply orb_false_iff in H as [Hp Hc]; rewrite Hp; [reflexivity |].
  rewrite (IH Hc). reflexivity.
Qed.

(** The needle is found where it first occurs: after [u], when it does not
    start anywhere inside [u]. *)
Lemma str_find_first u needle v :
  nonempty needle = true ->
  contains needle (u ++ but_last needle) = false ->
  str_find (u ++ needle ++ v) needle = Z.of_nat (String.length u).
Proof.
  intros Hne. induction u as [| c u IH]; intros Hc.
  - cbn [String.append String.length].
    destruct (needle ++ v)%string eqn:Happ; cbn [str_find]; rewrite <- Happ;
      rewrite prefix_app; reflexivity.
  - change (String c u ++ but_last needle)%string
      with (String c (u ++ but_last needle)) in Hc.
    cbn [contains] in Hc. apply orb_false_iff in Hc as [Hp Hc].
    change (String c u ++ needle ++ v)%string with (String c (u ++ needle ++ v)).
    cbn [str_find].
    assert (Hp' : String.prefix needle (String c (u ++ needle ++ v)) = false).
    { destruct (but_last_snoc needle Hne) as (x & Hx).
      rewrite Hx at 2. rewrite string_app_assoc.
      change (String c (u ++ but_last needle ++ String x "" ++ v))%string
        with (String c u ++ (but_last needle ++ (String x "" ++ v)))%string.
      rewrite <- string_app_assoc.
      rewrite prefix_app_short.
      - exact Hp.
      - rewrite (length_but_last needle Hne), length_append. cbn. lia. }
    rewrite Hp', (IH Hc).
    destruct (Z.ltb_spec (Z.of_nat (String.length u)) 0); [lia |].
    cbn [String.length]. lia.
Qed.

Lemma substring_zero_app m v : substring 0 (String.length m) (m ++ v) = m.
Proof. induction m as [| c m IH]; cbn; [destruct v; reflexivity | now rewrite IH]. Qed.

Lemma substring_skip u n s :
  substring (String.length u) n (u ++ s) = substring 0 n s.
Proof. induction u as [| c u IH]; [reflexivity | exact IH]. Qed.

Lemma substring_none n s : substring n 0 s = EmptyString.
Proof.
  revert n. induction s as [| c s IH]; intros [| n]; cbn; try reflexivity.
  apply IH.
Qed.

Lemma substring_but_last s :
  substring 0 (String.length s - 1) s = but_last s.
Proof.
  induction s as [| c s IH]; [reflexivity |].
  destruct s as [| d s]; [reflexivity |].
  replace (String.length (String c (String d s)) - 1)
    with (S (String.length (String d s) - 1)) by (cbn [String.length]; lia).
  change (String c (substring 0 (String.length (String d s) - 1) (String d s))
          = but_last (String c (String d s))).
  rewrite IH. reflexivity.
Qed.

(** The slice between the two ends of [m] inside [u ++ m ++ v] is [m]. *)
Lemma str_slice_middle u m v :
  str_slice (u ++ m ++ v)
            (Z.of_nat (String.length u))
            (Z.of_nat (String.length u + String.length m)) = m.
Proof.
  unfold str_slice, slice_bound. rewrite !length_append.
  destruct (Z.ltb_spec (Z.of_nat (String.length u)) 0); [lia |].
  destruct (Z.ltb_spec (Z.of_nat (String.length u + String.length m)) 0); [lia |].
  rewrite !Z.min_l by lia.
  replace (Z.to_nat (Z.of_nat (String.length u + String.length m)
                     - Z.of_nat (String.length u)))
    with (String.length m) by lia.
  rewrite Nat2Z.id, substring_skip. apply substring_zero_app.
Qed.

Lemma replace_char_no_old old new s :
  old <> new -> has_char old (replace_char old new s) = false.
Proof.
  intros Hne. induction s as [| c s IH]; [reflexivity |].
  cbn [replace_char has_char]. rewrite IH, orb_false_r.
  destruct (Ascii.eqb_spec c old) as [-> | Hc].
  - destruct (Ascii.eqb_spec new old); [congruence | reflexivity].
  - destruct (Ascii.eqb_spec c old); [contradiction | reflexivity].
Qed.

Lemma str_find_prefix s needle :
  String.prefix needle s = true -> str_find s needle = 0%Z.
Proof. intros H. destruct s; cbn [str_find]; rewrite H; reflexivity. Qed.

(** A slice that starts at the last character and stops where a needle was
    or was not found is empty. *)
Lemma str_slice_from_last s needle :
  nonempty needle = true ->
  str_slice s (-1) (str_find s needle) = EmptyString.
Proof.
  intros Hne. unfold str_slice, slice_bound.
  change (-1 <? 0)%Z with true. cbv iota.
  assert (Hlen : 1 <= String.length needle)
    by (destruct needle; [discriminate | cbn; lia]).
  match goal with
  | |- substring _ ?n _ = _ => replace n with 0; [apply substring_none |]
  end.
  destruct (str_find_range s needle) as [-> | [Hlo Hhi]].
  - change (-1 <? 0)%Z with true. cbv iota. lia.
  - destruct (Z.ltb_spec (str_find s needle) 0); lia.
Qed.

(** ** [file_to_module] of [setup.py] *)

(** X7: for a path that reads [before ++ namespace ++ rest ++ ".pyx"], where
    the namespace does not occur earlier and [".pyx"] occurs only at the
    end, the module name is the namespace and the rest with dots for
    slashes: what comes before the namespace and the extension are cut. *)
Theorem file_to_module_of_pyx_under_namespace file_path before namespace rest :
  as_posix file_path = (before ++ namespace ++ rest ++ ".pyx")%string ->
  nonempty namespace = true ->
  contains namespace (before ++ but_last namespace) = false ->
  contains ".pyx" (before ++ namespace ++ rest ++ ".py") = false ->
  Setup.file_to_module file_path namespace =
  replace_char slash "." (namespace ++ rest).
Proof.
  intros Hpath Hne Hns Hext. unfold Setup.file_to_module, Setup.os_sep.
  rewrite Hpath.
  rewrite (str_find_first before namespace (rest ++ ".pyx") Hne Hns).
  assert (Hshape : (before ++ namespace ++ rest ++ ".pyx")%string =
                   ((before ++ namespace ++ rest) ++ ".pyx" ++ "")%string).
  { rewrite !string_app_assoc. reflexivity. }
  assert (Hfind : str_find (before ++ namespace ++ rest ++ ".pyx") ".pyx" =
                  Z.of_nat (String.length before + String.length (namespace ++ rest))).
  { rewrite Hshape, str_find_first; [| reflexivity |].
    - rewrite !length_append. lia.
    - change (but_last ".pyx") with ".py". rewrite !string_app_assoc. exact Hext. }
  rewrite Hfind.
  replace (before ++ namespace ++ rest ++ ".pyx")%string
    with (before ++ (namespace ++ rest) ++ ".pyx")%string
    by (rewrite !string_app_assoc; reflexivity).
  rewrite str_slice_middle. reflexivity.
Qed.

(** X8: the module name never contains a path separator. *)
Theorem file_to_module_has_no_separator file_path namespace :
  has_char slash (Setup.file_to_module file_path namespace) = false.
Proof.
  unfold Setup.file_to_module, Setup.os_sep.
  apply replace_char_no_old. discriminate.
Qed.

(** X9: for a path that starts with the namespace and has no [".pyx"] in
    it, nothing fails: [find] answers [-1], and the module name is the path
    without its last character, with dots for slashes. *)
Theorem file_to_module_without_pyx_drops_last_char file_path namespace :
  String.prefix namespace (as_posix file_path) = true ->
  contains ".pyx" (as_posix file_path) = false ->
  Setup.file_to_module file_path namespace =
  replace_char slash "." (but_last (as_posix file_path)).
Proof.
  intros Hns Hext. unfold Setup.file_to_module, Setup.os_sep.
  rewrite (str_find_prefix _ _ Hns), (str_find_absent _ _ Hext).
  unfold str_slice, slice_bound.
  change (0 <? 0)%Z with false. change (-1 <? 0)%Z with true. cbv iota.
  rewrite Z.min_l by lia. change (Z.to_nat 0) with 0.
  match goal with
  | |- context [substring 0 ?n _] =>
      replace n with (String.length (as_posix file_path) - 1) by lia
  end.
  rewrite substring_but_last. reflexivity.
Qed.

(** X10: for a path in which the namespace does not occur, nothing fails
    either: the module name is the empty string. *)
Theorem file_to_module_outside_namespace_is_empty file_path namespace :
  contains namespace (as_posix file_path) = false ->
  Setup.file_to_module file_path namespace = EmptyString.
Proof.
  intros Hns. unfold Setup.file_to_module.
  rewrite (str_find_absent _ _ Hns), str_slice_from_last; reflexivity.
Qed.

Lemma file_to_module_element_pyx :
  Setup.file_to_module (Path_of "src/sage_libgap/libgap/element.pyx") "sage_libgap"
  = "sage_libgap.libgap.element".
Proof.
  exact (file_to_module_of_pyx_under_namespace
           (Path_of "src/sage_libgap/libgap/element.pyx")
           "src/" "sage_libgap" "/libgap/element"
           eq_refl eq_refl eq_refl eq_refl).
Defined.

Lemma file_to_module_setup_py :
  Setup.file_to_module (Path_of "sage_libgap/setup.py") "sage_libgap"
  = "sage_libgap.setup.p".
Proof.
  exact (file_to_module_without_pyx_drops_last_char
           (Path_of "sage_libgap/setup.py") "sage_libgap" eq_refl eq_refl).
Defined.

Lemma file_to_module_other_package :
  Setup.file_to_module (Path_of "other/element.pyx") "sage_libgap" = "".
Proof.
  exact (file_to_module_outside_namespace_is_empty
           (Path_of "other/element.pyx") "sage_libgap" eq_refl).
Defined.

(** ** The two [find_gap] functions *)

Section CheckedRoot.

Variable w : World.

(** Both functions have one shape: the candidate root, two asserted
    existence checks on paths under it, and the root as the result. *)
Variables first_path second_path : Path -> Path.
Variables first_msg second_msg : Path -> string.

Local Abbreviation checked_root :=
  (gap_root <- Env.candidate_root ;;
   py_assert (Path_exists (first_path gap_root)) (first_msg gap_root) ;;
   py_assert (Path_exists (second_path gap_root)) (second_msg gap_root) ;;
   ret gap_root).

Lemma run_checked_root_raise e :
  result_of Env.candidate_root w = Raise e ->
  run checked_root w = (trace_of Env.candidate_root w, Raise e).
Proof.
  intros H. rewrite run_bind, (run_split Env.candidate_root w), H. reflexivity.
Qed.

Lemma run_checked_root_debug root :
  py_debug w = true ->
  result_of Env.candidate_root w = Return root ->
  run checked_root w =
  match Path_exists_answer w (Path_str (first_path root)) with
  | Return true =>
      ((trace_of Env.candidate_root w ++
        [EvExists (Path_str (first_path root));
         EvExists (Path_str (second_path root))])%list,
       match Path_exists_answer w (Path_str (second_path root)) with
       | Return true => Return root
       | Return false => Raise (AssertionError (second_msg root))
       | Raise e => Raise e
       end)
  | Return false =>
      ((trace_of Env.candidate_root w ++ [EvExists (Path_str (first_path root))])%list,
       Raise (AssertionError (first_msg root)))
  | Raise e =>
      ((trace_of Env.candidate_root w ++ [EvExists (Path_str (first_path root))])%list,
       Raise e)
  end.
Proof.
  intros Hd Hroot.
  rewrite run_bind, (run_split Env.candidate_root w), Hroot.
  rewrite run_bind, (run_py_assert_debug w _ _ Hd).
  destruct (Path_exists_answer w (Path_str (first_path root))) as [[|] | e];
    [| reflexivity | reflexivity].
  cbv beta iota. rewrite run_bind, (run_py_assert_debug w _ _ Hd).
  destruct (Path_exists_answer w (Path_str (second_path root))) as [[|] | e];
    reflexivity.
Qed.

Lemma run_checked_root_optimized root :
  py_debug w = false ->
  result_of Env.candidate_root w = Return root ->
  run checked_root w = (trace_of Env.candidate_root w, Return root).
Proof.
  intros Hd Hroot.
  rewrite run_bind, (run_split Env.candidate_root w), Hroot.
  rewrite run_bind, (run_py_assert_optimized w _ _ Hd). cbv beta iota.
  rewrite run_bind, (run_py_assert_optimized w _ _ Hd). cbv beta iota.
  rewrite run_ret. cbn [fst snd app]. rewrite !app_nil_r. reflexivity.
Qed.

(** What is returned is the candidate root. *)
Lemma checked_root_returns_candidate r :
  snd (run checked_root w) = Return r ->
  result_of Env.candidate_root w = Return r.
Proof.
  destruct (result_of Env.candidate_root w) as [root | e] eqn:Hroot.
  - destruct (py_debug w) eqn:Hd.
    + rewrite (run_checked_root_debug root Hd Hroot).
      destruct (Path_exists_answer w (Path_str (first_path root))) as [[|] | e1];
        [destruct (Path_exists_answer w (Path_str (second_path root)))
           as [[|] | e2] | |];
        cbn [snd]; congruence.
    + rewrite (run_checked_root_optimized root Hd Hroot). cbn [snd]. congruence.
  - rewrite (run_checked_root_raise e Hroot). discriminate.
Qed.

(** The events are those of the candidate root, then existence checks. *)
Lemma checked_root_trace :
  exists checks,
    fst (run checked_root w) = (trace_of Env.candidate_root w ++ checks)%list /\
    Forall (fun ev => exists path, ev = EvExists path) checks.
Proof.
  destruct (result_of Env.candidate_root w) as [root | e] eqn:Hroot.
  - destruct (py_debug w) eqn:Hd.
    + rewrite (run_checked_root_debug root Hd Hroot).
      destruct (Path_exists_answer w (Path_str (first_path root))) as [[|] | e1];
        cbn [fst]; eexists; (split; [reflexivity |]);
        repeat constructor; eexists; reflexivity.
    + rewrite (run_checked_root_optimized root Hd Hroot).
      exists []. cbn [fst]. rewrite app_nil_r. split; constructor.
  - rewrite (run_checked_root_raise e Hroot).
    exists []. cbn [fst]. rewrite app_nil_r. split; constructor.
Qed.

End CheckedRoot.

Section Locators.

Variable w : World.

Lemma env_find_gap_returns_candidate r :
  result_of Env.find_gap w = Return r -> result_of Env.candidate_root w = Return r.
Proof.
  exact (checked_root_returns_candidate w
           (fun root => joinpath root ["lib"; "init.g"])
           (fun root => joinpath root ["pkg"])
           Env.lib_not_found Env.pkg_not_found r).
Qed.

Lemma setup_find_gap_returns_candidate r :
  result_of Setup.find_gap w = Return r -> result_of Env.candidate_root w = Return r.
Proof.
  exact (checked_root_returns_candidate w
           (fun root => joinpath root [".libs"])
           (fun root => joinpath root ["build"; "gap"])
           Setup.libs_not_found Setup.headers_not_found r).
Qed.

Lemma trace_candidate_root_which exe :
  which w "gap" = Some exe -> trace_of Env.candidate_root w = [EvWhich "gap"].
Proof.
  intros H. change (fst (run Env.candidate_root w) = [EvWhich "gap"]).
  rewrite (run_candidate_root_which w exe H). reflexivity.
Qed.

(** X3: a launcher on the search path takes priority: [find_gap] then never
    reads the override variable, and the only root it can return is the
    folder of the launcher, whatever [GAP_ROOT] is set to. *)
Theorem find_gap_prefers_search_path exe :
  which w "gap" = Some exe ->
  ~ In (EvEnviron "GAP_ROOT") (trace_of Env.find_gap w) /\
  (forall r, result_of Env.find_gap w = Return r -> r = Path_parent (Path_of exe)).
Proof.
  intros Hw. split.
  - destruct (checked_root_trace w
                (fun root => joinpath root ["lib"; "init.g"])
                (fun root => joinpath root ["pkg"])
                Env.lib_not_found Env.pkg_not_found) as (checks & Htr & Hchecks).
    change (trace_of Env.find_gap w) with (fst (run Env.find_gap w)).
    unfold Env.find_gap. rewrite Htr, (trace_candidate_root_which exe Hw).
    intros [Hin | Hin]; [discriminate |].
    rewrite Forall_forall in Hchecks.
    destruct (Hchecks _ Hin) as (path & Hpath). discriminate.
  - intros r Hr. apply env_find_gap_returns_candidate in Hr.
    change (snd (run Env.candidate_root w) = Return r) in Hr.
    rewrite (run_candidate_root_which w exe Hw) in Hr. cbn [snd] in Hr. congruence.
Qed.

(** X4: whether assertions are enabled or not, a root returned by
    [find_gap] is the folder of the launcher found on the search path or,
    when there is no launcher, the value of the override variable. *)
Theorem find_gap_root_origin r :
  result_of Env.find_gap w = Return r ->
  (exists exe, which w "gap" = Some exe /\ r = Path_parent (Path_of exe)) \/
  (which w "gap" = None /\
   exists s, environ_get w "GAP_ROOT" = Some s /\ r = Path_of s).
Proof.
  intros Hr. apply candidate_root_sources, env_find_gap_returns_candidate, Hr.
Qed.

(** X5: the build-time [find_gap] of [setup.py], with assertions enabled:
    a candidate root without [.libs] raises an [AssertionError] about the
    GAP library, one with [.libs] and without [build/gap] raises one about
    the GAP headers, and the root is returned exactly when both exist.  A
    path is missing when its [stat] fails with [ENOENT], [ENOTDIR], [EBADF]
    or [ELOOP]; a [stat] that fails with another [OSError] makes
    [find_gap] raise that error. *)
Theorem setup_find_gap_validates_build_tree root :
  py_debug w = true ->
  result_of Env.candidate_root w = Return root ->
  (forall code filename,
      path_stat w (Path_str (joinpath root [".libs"])) = Raise (OSError code filename) ->
      ignored_errno code = true ->
      result_of Setup.find_gap w =
      Raise (AssertionError
               ("Folder with the GAP library not found. Expected it in " ++
                Path_str (joinpath root [".libs"])))) /\
  (path_exists w (Path_str (joinpath root [".libs"])) = true ->
   forall code filename,
     path_stat w (Path_str (joinpath root ["build"; "gap"]))
       = Raise (OSError code filename) ->
     ignored_errno code = true ->
     result_of Setup.find_gap w =
     Raise (AssertionError
              ("Folder with the GAP headers not found. Expected it in " ++
               Path_str (joinpath root ["build"; "gap"])))) /\
  (path_exists w (Path_str (joinpath root [".libs"])) = true /\
   path_exists w (Path_str (joinpath root ["build"; "gap"])) = true <->
   result_of Setup.find_gap w = Return root) /\
  (forall code filename,
      path_stat w (Path_str (joinpath root [".libs"])) = Raise (OSError code filename) ->
      ignored_errno code = false ->
      result_of Setup.find_gap w = Raise (OSError code filename)) /\
  (path_exists w (Path_str (joinpath root [".libs"])) = true ->
   forall code filename,
     path_stat w (Path_str (joinpath root ["build"; "gap"]))
       = Raise (OSError code filename) ->
     ignored_errno code = false ->
     result_of Setup.find_gap w = Raise (OSError code filename)).
Proof.
  intros Hd Hroot.
  assert (Hres : result_of Setup.find_gap w =
    match Path_exists_answer w (Path_str (joinpath root [".libs"])) with
    | Return true =>
        match Path_exists_answer w (Path_str (joinpath root ["build"; "gap"])) with
        | Return true => Return root
        | Return false => Raise (AssertionError (Setup.headers_not_found root))
        | Raise e => Raise e
        end
    | Return false => Raise (AssertionError (Setup.libs_not_found root))
    | Raise e => Raise e
    end).
  { change (result_of Setup.find_gap w) with (snd (run Setup.find_gap w)).
    unfold Setup.find_gap.
    rewrite (run_checked_root_debug w _ _ _ _ root Hd Hroot).
    destruct (Path_exists_answer w (Path_str (joinpath root [".libs"])))
      as [[|] | e]; reflexivity. }
  rewrite Hres. clear Hres.
  split; [| split; [| split; [| split]]].
  - intros code filename Hstat Hcode.
    rewrite (Path_exists_answer_missing w _ _ _ Hstat Hcode). reflexivity.
  - intros Hlibs code filename Hstat Hcode.
    rewrite (proj2 (Path_exists_answer_true w _) Hlibs).
    rewrite (Path_exists_answer_missing w _ _ _ Hstat Hcode). reflexivity.
  - split.
    + intros [Hlibs Hheaders].
      rewrite (proj2 (Path_exists_answer_true w _) Hlibs).
      rewrite (proj2 (Path_exists_answer_true w _) Hheaders). reflexivity.
    + intros Hr.
      destruct (Path_exists_answer w (Path_str (joinpath root [".libs"])))
        as [[|] | e] eqn:Hlibs; try discriminate.
      destruct (Path_exists_answer w (Path_str (joinpath root ["build"; "gap"])))
        as [[|] | e] eqn:Hheaders; try discriminate.
      apply Path_exists_answer_true in Hlibs, Hheaders. split; assumption.
  - intros code filename Hstat Hcode.
    rewrite (Path_exists_answer_refused w _ _ _ Hstat Hcode). reflexivity.
  - intros Hlibs code filename Hstat Hcode.
    rewrite (proj2 (Path_exists_answer_true w _) Hlibs).
    rewrite (Path_exists_answer_refused w _ _ _ Hstat Hcode). reflexivity.
Qed.

(** X6: the build-time and the run-time [find_gap] look for the root in the
    same way: in a world where both return, they return the same root; and
    where neither source gives a candidate, both raise the same
    [ValueError]. *)
Theorem find_gap_variants_agree :
  (forall r r', result_of Env.find_gap w = Return r ->
                result_of Setup.find_gap w = Return r' -> r = r') /\
  (which w "gap" = None -> environ_get w "GAP_ROOT" = None ->
   result_of Setup.find_gap w = Raise (ValueError Env.gap_not_found) /\
   result_of Env.find_gap w = Raise (ValueError Env.gap_not_found)).
Proof.
  split.
  - intros r r' Hr Hr'.
    apply env_find_gap_returns_candidate in Hr.
    apply setup_find_gap_returns_candidate in Hr'. congruence.
  - intros Hw He.
    assert (Hc : result_of Env.candidate_root w = Raise (ValueError Env.gap_not_found)).
    { change (snd (run Env.candidate_root w) = Raise (ValueError Env.gap_not_found)).
      rewrite (run_candidate_root_none w Hw He). reflexivity. }
    split.
    + change (snd (run Setup.find_gap w) = Raise (ValueError Env.gap_not_found)).
      unfold Setup.find_gap. rewrite (run_checked_root_raise w _ _ _ _ _ Hc).
      reflexivity.
    + change (snd (run Env.find_gap w) = Raise (ValueError Env.gap_not_found)).
      unfold Env.find_gap. rewrite (run_checked_root_raise w _ _ _ _ _ Hc).
      reflexivity.
Qed.

End Locators.

Lemma find_gap_variants_on_examples :
  Path_of "/src/gap" = Path_of "/src/gap" /\
  result_of Setup.find_gap bare = Raise (ValueError Env.gap_not_found) /\
  result_of Env.find_gap bare = Raise (ValueError Env.gap_not_found).
Proof.
  split.
  - exact (proj1 (find_gap_variants_agree full_tree)
                 (Path_of "/src/gap") (Path_of "/src/gap") eq_refl eq_refl).
  - exact (proj2 (find_gap_variants_agree bare) eq_refl eq_refl).
Defined.

Lemma find_gap_prefers_search_path_full_tree :
  environ_get full_tree "GAP_ROOT" = Some "/elsewhere" /\
  ~ In (EvEnviron "GAP_ROOT") (trace_of Env.find_gap full_tree) /\
  (forall r, result_of Env.find_gap full_tree = Return r -> r = Path_of "/src/gap").
Proof.
  split; [reflexivity |].
  exact (find_gap_prefers_search_path full_tree "/src/gap/gap" eq_refl).
Defined.

Lemma find_gap_root_origin_empty_root_optimized :
  (exists exe, which empty_root_optimized "gap" = Some exe /\
               Path_of "/tmp/empty" = Path_parent (Path_of exe)) \/
  (which empty_root_optimized "gap" = None /\
   exists s, environ_get empty_root_optimized "GAP_ROOT" = Some s /\
             Path_of "/tmp/empty" = Path_of s).
Proof.
  exact (find_gap_root_origin empty_root_optimized (Path_of "/tmp/empty") eq_refl).
Defined.

Lemma setup_find_gap_build_tree_accepted :
  result_of Setup.find_gap build_tree = Return (Path_of "/src/gap") /\
  (path_stat locked_root "/root/gap/.libs" = Raise (OSError EACCES "/root/gap/.libs") /\
   result_of Setup.find_gap locked_root = Raise (OSError EACCES "/root/gap/.libs")).
Proof.
  split.
  - exact (proj1 (proj1 (proj2 (proj2 (setup_find_gap_validates_build_tree
                    build_tree (Path_of "/src/gap") eq_refl eq_refl))))
                 (conj eq_refl eq_refl)).
  - split; [reflexivity |].
    exact (proj1 (proj2 (proj2 (proj2 (setup_find_gap_validates_build_tree
                    locked_root (Path_of "/root/gap") eq_refl eq_refl))))
                 EACCES "/root/gap/.libs" eq_refl eq_refl).
Defined.

(** ** [GAP_ROOT_PATHS] *)

Lemma parse_parts_wf s : Forall (fun part => nonempty part = true) (parse_parts s).
Proof.
  apply Forall_forall. intros part Hin. unfold parse_parts in Hin.
  apply filter_In in Hin as [_ H]. apply andb_true_iff in H as [H _]. exact H.
Qed.

Lemma Path_of_wf s : Path_wf (Path_of s).
Proof. apply parse_parts_wf. Qed.

Lemma Forall_removelast {A} (P : A -> Prop) l : Forall P l -> Forall P (removelast l).
Proof.
  induction 1 as [| x l Hx Hl IH]; [constructor |].
  destruct l as [| y l]; [constructor |].
  change (removelast (x :: y :: l)) with (x :: removelast (y :: l)).
  constructor; assumption.
Qed.

Lemma Path_parent_wf p : Path_wf p -> Path_wf (Path_parent p).
Proof.
  unfold Path_wf, Path_parent. intros H.
  destruct (path_parts p) as [| part parts] eqn:Hparts.
  - rewrite Hparts. constructor.
  - cbn [path_parts]. apply Forall_removelast. exact H.
Qed.

Lemma nonempty_append_l a b : nonempty a = true -> nonempty (a ++ b) = true.
Proof. destruct a; [discriminate | reflexivity]. Qed.

(** A path never prints as the empty string. *)
Lemma Path_str_nonempty p : Path_wf p -> nonempty (Path_str p) = true.
Proof.
  unfold Path_wf, Path_str. intros H.
  destruct (path_root p) as [| c root].
  - destruct (path_parts p) as [| part parts]; [reflexivity |].
    inversion H as [| ? ? Hpart _]; subst.
    cbn [String.append join_with].
    destruct parts; [exact Hpart | apply nonempty_append_l; exact Hpart].
  - destruct (path_parts p); reflexivity.
Qed.

Lemma find_gap_root_wf w r : result_of Env.find_gap w = Return r -> Path_wf r.
Proof.
  intros Hr. apply env_find_gap_returns_candidate, candidate_root_sources in Hr.
  destruct Hr as [(exe & _ & ->) | (_ & s & _ & ->)].
  - apply Path_parent_wf, Path_of_wf.
  - apply Path_of_wf.
Qed.

(** X1: when [GAP_ROOT_PATHS] is set to a non-empty value, that value is the
    search path, after the single look-up of the variable: the launcher is
    not searched, [GAP_ROOT] is not read and no directory is checked, so the
    result does not depend on whether GAP can be found. *)
Theorem GAP_ROOT_PATHS_nonempty_value_is_taken w s :
  environ_get w "GAP_ROOT_PATHS" = Some s ->
  nonempty s = true ->
  run Env.GAP_ROOT_PATHS w = ([EvEnviron "GAP_ROOT_PATHS"], Return s).
Proof. exact (GAP_ROOT_PATHS_nonempty_value w s). Qed.

(** X2: whenever [GAP_ROOT_PATHS] gets a value, the value is not the empty
    string: it is a non-empty value of the variable or the root of
    [find_gap] as text, which is at least ["."]. *)
Theorem GAP_ROOT_PATHS_is_never_empty w s :
  result_of Env.GAP_ROOT_PATHS w = Return s -> nonempty s = true.
Proof.
  change (snd (run Env.GAP_ROOT_PATHS w) = Return s -> nonempty s = true).
  destruct (truthy (environ_get w "GAP_ROOT_PATHS")) eqn:Hv.
  - destruct (environ_get w "GAP_ROOT_PATHS") as [value |] eqn:He; [| discriminate].
    cbn [truthy] in Hv. rewrite (GAP_ROOT_PATHS_nonempty_value w value He Hv).
    cbn [snd]. congruence.
  - rewrite (GAP_ROOT_PATHS_falls_back w Hv). cbn [snd].
    destruct (result_of Env.find_gap w) as [root |] eqn:Hroot; [| discriminate].
    intros [= <-]. apply Path_str_nonempty, (find_gap_root_wf w root Hroot).
Qed.

Lemma GAP_ROOT_PATHS_installed_value :
  run Env.GAP_ROOT_PATHS installed = ([EvEnviron "GAP_ROOT_PATHS"], Return "/opt/gap;").
Proof.
  exact (GAP_ROOT_PATHS_nonempty_value_is_taken installed "/opt/gap;" eq_refl eq_refl).
Defined.

Lemma GAP_ROOT_PATHS_fallback_not_empty :
  result_of Env.GAP_ROOT_PATHS empty_search_path_installed = Return "/opt/gap" /\
  nonempty "/opt/gap" = true.
Proof.
  split; [reflexivity |].
  exact (GAP_ROOT_PATHS_is_never_empty empty_search_path_installed "/opt/gap" eq_refl).
Defined.

(** ** What [timestamp] returns and raises *)

Section TimestampOutcome.

Import SavedWorkspace.

Variable im : Imports.
Variable w : World.

Lemma max_from_attained rest :
  forall x, max_from x rest = x \/ In (max_from x rest) rest.
Proof.
  unfold max_from. induction rest as [| y rest IH]; intros x; [left; reflexivity |].
  cbn [fold_left].
  destruct (IH (if fgt y x then y else x)) as [H | H].
  - rewrite H. destruct (fgt y x); [right; left; reflexivity | left; reflexivity].
  - right. right. exact H.
Qed.

Lemma probed_In_l files ts p :
  Forall2 (probed w) files ts -> In p files ->
  exists t, In t ts /\ getmtime w p = Return t.
Proof.
  induction 1 as [| q tq files ts Hq _ IH]; intros Hin; [contradiction |].
  destruct Hin as [-> | Hin].
  - exists tq. split; [left; reflexivity | exact Hq].
  - destruct (IH Hin) as (t & Ht & Hp). exists t. split; [right |]; assumption.
Qed.

Lemma probed_In_r files ts t :
  Forall2 (probed w) files ts -> In t ts ->
  exists p, In p files /\ getmtime w p = Return t.
Proof.
  induction 1 as [| q tq files ts Hq _ IH]; intros Hin; [contradiction |].
  destruct Hin as [-> | Hin].
  - exists q. split; [left; reflexivity | exact Hq].
  - destruct (IH Hin) as (p & Hp & Ht). exists p. split; [right |]; assumption.
Qed.

Lemma all_probed_Forall2 files :
  (forall p, In p files -> exists t, getmtime w p = Return t) ->
  exists ts, Forall2 (probed w) files ts.
Proof.
  induction files as [| p files IH]; intros H.
  - exists []. constructor.
  - destruct (H p (or_introl eq_refl)) as (t & Ht).
    destruct IH as (ts & Hts); [intros q Hq; apply H; right; exact Hq |].
    exists (t :: ts). constructor; assumption.
Qed.

(** If the probing raises, a candidate raised that exception when probed,
    after the candidates before it were probed with success. *)
Lemma map_io_raise_inv files e :
  result_of (map_io os_path_getmtime files) w = Raise e ->
  exists before ts p after,
    files = (before ++ p :: after)%list /\
    Forall2 (probed w) before ts /\ getmtime w p = Raise e.
Proof.
  induction files as [| q files IH]; intros H; [discriminate |].
  change (snd (run (map_io os_path_getmtime (q :: files)) w) = Raise e) in H.
  cbn [map_io] in H. rewrite run_bind in H.
  destruct (getmtime w q) as [t | e'] eqn:Hq.
  - rewrite (run_getmtime_return _ _ _ Hq) in H. cbn [fst snd] in H.
    rewrite run_bind, (run_split (map_io os_path_getmtime files) w) in H.
    destruct (result_of (map_io os_path_getmtime files) w) as [ms | e''] eqn:Hr.
    + rewrite run_ret in H. discriminate.
    + cbn [snd] in H. injection H as ->.
      destruct (IH eq_refl) as (before & ts & p & after & -> & Hts & Hp).
      exists (q :: before), (t :: ts), p, after.
      split; [reflexivity | split; [constructor; assumption | exact Hp]].
  - rewrite (run_getmtime_raise _ _ _ Hq) in H. cbn [snd] in H. injection H as ->.
    exists [], [], q, files. split; [reflexivity | split; [constructor | exact Hq]].
Qed.

(** The two ways in which [timestamp] returns. *)
Lemma timestamp_return_inv r :
  result_of (timestamp im) w = Return r ->
  (listed_files im w = [] /\ r = PInf) \/
  (exists f files t ts,
      listed_files im w = f :: files /\
      Forall2 (probed w) (f :: files) (t :: ts) /\
      r = max_from (Fin t) (map Fin ts)).
Proof.
  intros Hr. change (snd (run (timestamp im) w) = Return r) in Hr.
  destruct (listed_files im w) as [| f files] eqn:Hfiles.
  - rewrite (run_timestamp_no_files w im Hfiles) in Hr.
    left. split; [reflexivity | cbn [snd] in Hr; congruence].
  - right.
    rewrite run_timestamp_some_files in Hr by (rewrite Hfiles; discriminate).
    rewrite Hfiles in Hr. cbn [snd] in Hr.
    change (result_of ?m w) with (snd (run m w)) in Hr.
    rewrite run_bind, (run_split (map_io os_path_getmtime (f :: files)) w) in Hr.
    destruct (result_of (map_io os_path_getmtime (f :: files)) w)
      as [ms | e] eqn:Hms; [| discriminate].
    destruct (map_io_return_probed w _ _ Hms) as (ts & -> & Hts).
    destruct ts as [| t ts]; [inversion Hts |].
    cbn [map] in Hr. rewrite (run_py_max w) in Hr. cbn [fst snd] in Hr.
    injection Hr as <-.
    exists f, files, t, ts. split; [reflexivity | split; [exact Hts | reflexivity]].
Qed.

(** The one way in which [timestamp] raises. *)
Lemma timestamp_raise_inv e :
  result_of (timestamp im) w = Raise e ->
  exists before ts p after,
    listed_files im w = (before ++ p :: after)%list /\
    Forall2 (probed w) before ts /\ getmtime w p = Raise e.
Proof.
  intros He. change (snd (run (timestamp im) w) = Raise e) in He.
  destruct (listed_files im w) as [| f files] eqn:Hfiles.
  - rewrite (run_timestamp_no_files w im Hfiles) in He. discriminate.
  - rewrite run_timestamp_some_files in He by (rewrite Hfiles; discriminate).
    rewrite Hfiles in He. cbn [snd] in He.
    change (result_of ?m w) with (snd (run m w)) in He.
    rewrite run_bind, (run_split (map_io os_path_getmtime (f :: files)) w) in He.
    destruct (result_of (map_io os_path_getmtime (f :: files)) w)
      as [ms | e'] eqn:Hms.
    + destruct (map_io_return_probed w _ _ Hms) as (ts & -> & Hts).
      destruct ts as [| t ts]; [inversion Hts |].
      cbn [map] in He. rewrite (run_py_max w) in He. discriminate.
    + cbn [snd] in He. injection He as ->. exact (map_io_raise_inv _ _ Hms).
Qed.

(** With a candidate, a returned timestamp is the time of a candidate. *)
Lemma timestamp_attained r :
  listed_files im w <> [] ->
  result_of (timestamp im) w = Return r ->
  exists p t, In p (listed_files im w) /\ getmtime w p = Return t /\ r = Fin t.
Proof.
  intros Hne Hr.
  destruct (timestamp_return_inv r Hr)
    as [[Hnil _] | (f & files & t & ts & Hfiles & Hts & ->)]; [contradiction |].
  rewrite Hfiles.
  destruct (max_from_attained (map Fin ts) (Fin t)) as [-> | Hin].
  - inversion Hts; subst. exists f, t.
    split; [left; reflexivity | split; [assumption | reflexivity]].
  - apply in_map_iff in Hin as (t' & Heq & Hin). rewrite <- Heq.
    inversion Hts as [| ? ? ? ? _ Hrest]; subst.
    destruct (probed_In_r _ _ t' Hrest Hin) as (p & Hp & Ht').
    exists p, t'. split; [right; exact Hp | split; [exact Ht' | reflexivity]].
Qed.

(** X11: with at least one candidate, what [timestamp] returns is the
    modification time of one of the candidates, and no candidate has a later
    one: the time of the most recently changed file. *)
Theorem timestamp_is_newest_mtime r :
  listed_files im w <> [] ->
  result_of (timestamp im) w = Return r ->
  (exists p t, In p (listed_files im w) /\ getmtime w p = Return t /\ r = Fin t) /\
  (forall p t, In p (listed_files im w) -> getmtime w p = Return t -> fle (Fin t) r).
Proof.
  intros Hne Hr. split.
  - exact (timestamp_attained r Hne Hr).
  - intros p t. exact (timestamp_at_least_every_candidate im w r p t Hr).
Qed.

(** X12: the diagnostic is printed exactly when there is no candidate, and
    a returned timestamp is infinite exactly then: with a candidate,
    [timestamp] returns a finite time or raises. *)
Theorem timestamp_infinite_iff_no_candidates :
  (In (EvPrint no_files_message) (trace_of (timestamp im) w) <->
   listed_files im w = []) /\
  (forall r, result_of (timestamp im) w = Return r ->
             (r = PInf <-> listed_files im w = [])).
Proof.
  split.
  - change (trace_of (timestamp im) w) with (fst (run (timestamp im) w)).
    destruct (listed_files im w) as [| f files] eqn:Hfiles.
    + rewrite (run_timestamp_no_files w im Hfiles). cbn [fst].
      split; [reflexivity |]. intros _. apply in_or_app. right. left. reflexivity.
    + split; [| discriminate]. intros Hin. exfalso.
      rewrite run_timestamp_some_files in Hin by (rewrite Hfiles; discriminate).
      cbn [fst] in Hin. apply in_app_or in Hin as [Hin | Hin].
      * apply in_map_iff in Hin as (x & Hx & _). discriminate.
      * change (trace_of ?m w) with (fst (run m w)) in Hin.
        rewrite run_bind, (run_split (map_io os_path_getmtime _) w) in Hin.
        assert (Hprobes : forall files',
                   ~ In (EvPrint no_files_message)
                        (trace_of (map_io os_path_getmtime files') w)).
        { induction files' as [| q files' IH]; [intros [] |].
          change (trace_of (map_io os_path_getmtime (q :: files')) w)
            with (fst (run (map_io os_path_getmtime (q :: files')) w)).
          cbn [map_io]. rewrite run_bind.
          destruct (getmtime w q) as [t | e] eqn:Hq.
          - rewrite (run_getmtime_return _ _ _ Hq). cbn [fst snd].
            rewrite run_bind, (run_split (map_io os_path_getmtime files') w).
            destruct (result_of (map_io os_path_getmtime files') w).
            + rewrite run_ret. cbn [fst snd app]. rewrite app_nil_r.
              intros [H | H]; [discriminate | exact (IH H)].
            + cbn [fst app]. intros [H | H]; [discriminate | exact (IH H)].
          - rewrite (run_getmtime_raise _ _ _ Hq). cbn [fst].
            intros [H | []]. discriminate. }
        destruct (result_of (map_io os_path_getmtime (listed_files im w)) w)
          as [ms | e]; cbn [fst] in Hin.
        -- apply in_app_or in Hin as [Hin | Hin]; [exact (Hprobes _ Hin) |].
           change (fst (run (py_max ms) w)) with (trace_of (py_max ms) w) in Hin.
           rewrite trace_py_max in Hin. exact Hin.
        -- exact (Hprobes _ Hin).
  - intros r Hr.
    destruct (timestamp_return_inv r Hr)
      as [[Hnil ->] | (f & files & t & ts & Hfiles & Hts & ->)].
    + split; [intros _; exact Hnil | reflexivity].
    + rewrite Hfiles. split; [| discriminate]. intros Hinf. exfalso.
      destruct (max_from_attained (map Fin ts) (Fin t)) as [H | H].
      * rewrite H in Hinf. discriminate.
      * rewrite Hinf in H. apply in_map_iff in H as (x & Hx & _). discriminate.
Qed.

(** X13: an exception that leaves [timestamp] was raised by the probe of a
    candidate; [max] is never applied to an empty sequence. *)
Theorem timestamp_raises_only_probe_errors e :
  result_of (timestamp im) w = Raise e ->
  exists p, In p (listed_files im w) /\ getmtime w p = Raise e.
Proof.
  intros He.
  destruct (timestamp_raise_inv e He) as (before & ts & p & after & Hfiles & _ & Hp).
  exists p. split; [| exact Hp].
  rewrite Hfiles. apply in_or_app. right. left. reflexivity.
Qed.

End TimestampOutcome.

(** ** What [workspace] answers *)

Section WorkspaceOutcome.

Import SavedWorkspace.

Variable im : Imports.
Variable w : World.
Variable name : string.

Let path : string := gap_workspace_file im "libgap" name.

Lemma result_workspace_cases :
  result_of (workspace im name) w =
  match getmtime w path with
  | Return m =>
      match result_of (timestamp im) w with
      | Return now => Return (path, fge (Fin m) now)
      | Raise e => Raise e
      end
  | Raise e => if isinstance_OSError e then Return (path, false) else Raise e
  end.
Proof.
  change (result_of (workspace im name) w) with (snd (run (workspace im name) w)).
  destruct (getmtime w path) as [m | e] eqn:Hp.
  - rewrite (workspace_probe_ok im w name m Hp). reflexivity.
  - destruct e as [code filename | msg | msg].
    + rewrite (workspace_probe_OSError im w name code filename Hp). reflexivity.
    + rewrite (workspace_probe_other_error im w name _ Hp eq_refl). reflexivity.
    + rewrite (workspace_probe_other_error im w name _ Hp eq_refl). reflexivity.
Qed.

(** X14: [workspace] answers [True] only for a workspace file that can be
    probed and is at least as new as every candidate: each candidate can be
    probed and its modification time is not later than the file's. *)
Theorem workspace_fresh_means_no_newer_candidate :
  result_of (workspace im name) w = Return (path, true) ->
  exists m,
    getmtime w path = Return m /\
    forall p, In p (listed_files im w) ->
              exists t, getmtime w p = Return t /\ (t <= m)%Z.
Proof.
  rewrite result_workspace_cases.
  destruct (getmtime w path) as [m | e] eqn:Hp.
  - destruct (result_of (timestamp im) w) as [now | e] eqn:Hnow; [| discriminate].
    intros [= Hfresh]. change (fge (Fin m) now = true) in Hfresh.
    apply fge_fle in Hfresh.
    exists m. split; [reflexivity |]. intros p Hin.
    destruct (timestamp_return_inv im w now Hnow)
      as [[Hnil _] | (f & files & t0 & ts & Hfiles & Hts & _)].
    + rewrite Hnil in Hin. contradiction.
    + rewrite Hfiles in Hin.
      destruct (probed_In_l w _ _ p Hts Hin) as (t & _ & Ht).
      exists t. split; [exact Ht |].
      assert (Hle : fle (Fin t) now).
      { apply (timestamp_at_least_every_candidate im w now p t Hnow);
          [rewrite Hfiles; exact Hin | exact Ht]. }
      exact (fle_trans _ _ _ Hle Hfresh).
  - destruct (isinstance_OSError e); discriminate.
Qed.

(** X15: when there is no candidate at all, a workspace file that exists is
    never fresh, whatever its modification time: the timestamp is infinite. *)
Theorem workspace_never_fresh_without_candidates m :
  listed_files im w = [] ->
  getmtime w path = Return m ->
  result_of (workspace im name) w = Return (path, false).
Proof.
  intros Hnil Hp. rewrite result_workspace_cases, Hp.
  change (result_of (timestamp im) w) with (snd (run (timestamp im) w)).
  rewrite (run_timestamp_no_files w im Hnil). reflexivity.
Qed.

(** X16: [workspace] raises in two cases only: the probe of the workspace
    file raises an exception that is not an [OSError], or that probe
    succeeds and [timestamp] raises; it raises that same exception. *)
Theorem workspace_raises_iff e :
  result_of (workspace im name) w = Raise e <->
  (getmtime w path = Raise e /\ isinstance_OSError e = false) \/
  (exists m, getmtime w path = Return m /\
             result_of (timestamp im) w = Raise e).
Proof.
  rewrite result_workspace_cases.
  destruct (getmtime w path) as [m | e'] eqn:Hp.
  - destruct (result_of (timestamp im) w) as [now | e''] eqn:Hnow.
    + split; [discriminate |].
      intros [[H _] | (m' & _ & H)]; discriminate.
    + split.
      * intros [= ->]. right. exists m. split; reflexivity.
      * intros [[H _] | (m' & _ & H)]; [discriminate | congruence].
  - destruct (isinstance_OSError e') eqn:Hos.
    + split; [discriminate |].
      intros [[H Hno] | (m' & H & _)]; [| discriminate].
      injection H as ->. congruence.
    + split.
      * intros [= ->]. left. split; [reflexivity | exact Hos].
      * intros [[H _] | (m' & H & _)]; [congruence | discriminate].
Qed.

End WorkspaceOutcome.

Lemma workspace_fresh_w1_installed :
  exists m,
    getmtime installed "/ws/w1" = Return m /\
    forall p, In p (listed_files installed_imports installed) ->
              exists t, getmtime installed p = Return t /\ (t <= m)%Z.
Proof.
  exact (workspace_fresh_means_no_newer_candidate
           installed_imports installed "w1" eq_refl).
Defined.

Lemma timestamp_newest_installed :
  (exists p t, In p (listed_files installed_imports installed) /\
               getmtime installed p = Return t /\ Fin 9 = Fin t) /\
  (forall p t, In p (listed_files installed_imports installed) ->
               getmtime installed p = Return t -> fle (Fin t) (Fin 9)).
Proof.
  refine (timestamp_is_newest_mtime installed_imports installed (Fin 9) _ eq_refl).
  discriminate.
Defined.

Lemma timestamp_finite_installed :
  Fin 9 = PInf <-> listed_files installed_imports installed = [].
Proof.
  exact (proj2 (timestamp_infinite_iff_no_candidates installed_imports installed)
               (Fin 9) eq_refl).
Defined.

Lemma timestamp_vanished_error_source :
  exists p, In p (listed_files installed_imports vanished) /\
            getmtime vanished p = Raise (OSError ENOENT "/site/sage_libgap/env.py").
Proof.
  exact (timestamp_raises_only_probe_errors
           installed_imports vanished (OSError ENOENT "/site/sage_libgap/env.py")
           eq_refl).
Defined.

Lemma workspace_lonely_is_stale :
  result_of (workspace installed_imports "w1") lonely_workspace =
  Return ("/ws/w1", false).
Proof.
  exact (workspace_never_fresh_without_candidates
           installed_imports lonely_workspace "w1" 9%Z eq_refl eq_refl).
Defined.

Lemma workspace_raises_in_vanished :
  (getmtime vanished "/ws/w1" = Raise (OSError ENOENT "/site/sage_libgap/env.py") /\
   isinstance_OSError (OSError ENOENT "/site/sage_libgap/env.py") = false) \/
  (exists m, getmtime vanished "/ws/w1" = Return m /\
             result_of (timestamp installed_imports) vanished =
             Raise (OSError ENOENT "/site/sage_libgap/env.py")).
Proof.
  exact (proj1 (workspace_raises_iff installed_imports vanished "w1"
                  (OSError ENOENT "/site/sage_libgap/env.py"))
               eq_refl).
Defined.

(** ** The search path of [timestamp] *)

Lemma split_app_sep sep a b :
  split sep (a ++ String sep b) = (split sep a ++ split sep b)%list.
Proof.
  induction a as [| c a IH].
  - cbn [String.append split app]. rewrite Ascii.eqb_refl. reflexivity.
  - change (String c a ++ String sep b)%string with (String c (a ++ String sep b)).
    cbn [split]. rewrite IH.
    destruct (Ascii.eqb c sep); [reflexivity |].
    pose proof (split_not_nil sep a) as Hnil.
    destruct (split sep a) as [| seg segs]; [contradiction | reflexivity].
Qed.

Lemma search_path_entries_app a b :
  search_path_entries (a ++ String semicolon b) =
  (search_path_entries a ++ search_path_entries b)%list.
Proof. unfold search_path_entries. rewrite split_app_sep, filter_app. reflexivity. Qed.

(** What [timestamp] does depends on the imports only through the file of
    the module and the non-empty entries of the search path. *)
Lemma run_timestamp_same_entries im im' w :
  module_file im = module_file im' ->
  search_path_entries (GAP_ROOT_PATHS im) = search_path_entries (GAP_ROOT_PATHS im') ->
  run (timestamp im) w = run (timestamp im') w.
Proof.
  intros Hfile Hentries.
  assert (Hpatterns : glob_patterns im = glob_patterns im').
  { unfold glob_patterns, libgap_pattern. rewrite Hfile, Hentries. reflexivity. }
  assert (Hfiles : listed_files im w = listed_files im' w).
  { unfold listed_files. rewrite Hpatterns. reflexivity. }
  destruct (listed_files im w) as [| f files] eqn:Hlisted.
  - rewrite (run_timestamp_no_files w im Hlisted).
    rewrite (run_timestamp_no_files w im' (eq_sym Hfiles)).
    rewrite Hpatterns. reflexivity.
  - rewrite (run_timestamp_some_files w im) by (rewrite Hlisted; discriminate).
    rewrite (run_timestamp_some_files w im') by (rewrite <- Hfiles; discriminate).
    rewrite Hpatterns, <- Hfiles, Hlisted. reflexivity.
Qed.

(** X17: a semicolon at the start or at the end of the search path, or a
    doubled one inside it, changes nothing in what [timestamp] does: the
    same lookups, the same probes, the same result. *)
Theorem timestamp_ignores_extra_semicolons im w a b :
  run (timestamp (with_paths im (";" ++ a))) w = run (timestamp (with_paths im a)) w /\
  run (timestamp (with_paths im (a ++ ";"))) w = run (timestamp (with_paths im a)) w /\
  run (timestamp (with_paths im (a ++ ";;" ++ b))) w =
  run (timestamp (with_paths im (a ++ ";" ++ b))) w.
Proof.
  repeat split; apply run_timestamp_same_entries; try reflexivity;
    cbn [with_paths GAP_ROOT_PATHS].
  - change (a ++ ";")%string with (a ++ String semicolon "")%string.
    rewrite search_path_entries_app. apply app_nil_r.
  - change (a ++ ";;" ++ b)%string with (a ++ String semicolon (String semicolon b))%string.
    change (a ++ ";" ++ b)%string with (a ++ String semicolon b)%string.
    rewrite !search_path_entries_app.
    change (String semicolon b) with ("" ++ String semicolon b)%string.
    rewrite search_path_entries_app. reflexivity.
Qed.

(** ** New candidates *)

(** X18: when candidates are added to a candidate list that is not empty,
    the others keeping their modification times, and all candidates can be
    probed, the timestamp does not decrease; it is at least the time of
    every added candidate. *)
Theorem timestamp_grows_with_new_candidates im w w' r :
  gains_candidates im w w' ->
  listed_files im w <> [] ->
  result_of (timestamp im) w = Return r ->
  exists r',
    result_of (timestamp im) w' = Return r' /\
    fle r r' /\
    (forall p t, In p (listed_files im w') -> getmtime w' p = Return t ->
                 fle (Fin t) r').
Proof.
  intros (Hincl & Hsame & Hprobes) Hne Hr.
  destruct (timestamp_attained im w r Hne Hr) as (p0 & t0 & Hp0 & Ht0 & ->).
  destruct (all_probed_Forall2 w' _ Hprobes) as (ts' & Hts').
  destruct (listed_files im w') as [| f' files'] eqn:Hfiles'.
  { exfalso. exact (Hincl p0 Hp0). }
  destruct ts' as [| t' ts']; [inversion Hts' |].
  pose proof (run_timestamp_probed im w' f' files' t' ts' Hfiles' Hts') as Hrun.
  assert (Hr' : result_of (timestamp im) w' = Return (max_from (Fin t') (map Fin ts'))).
  { change (snd (run (timestamp im) w') = Return (max_from (Fin t') (map Fin ts'))).
    rewrite Hrun. reflexivity. }
  exists (max_from (Fin t') (map Fin ts')).
  split; [exact Hr' | split].
  - apply (timestamp_at_least_every_candidate im w' _ p0 t0 Hr').
    + rewrite Hfiles'. exact (Hincl p0 Hp0).
    + rewrite (Hsame p0 Hp0). exact Ht0.
  - intros p t Hp Ht.
    apply (timestamp_at_least_every_candidate im w' _ p t Hr');
      [rewrite Hfiles'; exact Hp | exact Ht].
Qed.

Lemma timestamp_after_adding_semigroups :
  exists r',
    result_of (timestamp installed_imports) package_added = Return r' /\
    fle (Fin 9) r' /\
    (forall p t, In p (listed_files installed_imports package_added) ->
                 getmtime package_added p = Return t -> fle (Fin t) r').
Proof.
  refine (timestamp_grows_with_new_candidates
            installed_imports installed package_added (Fin 9) _ _ eq_refl).
  - split; [| split].
    + intros p [<- | [<- | [<- | []]]]; cbn; tauto.
    + intros p [<- | [<- | [<- | []]]]; reflexivity.
    + intros p [<- | [<- | [<- | [<- | []]]]]; eexists; reflexivity.
  - discriminate.
Defined.

(** ** What the functions read *)

Section Reads.

Import SavedWorkspace.

Variable im : Imports.
Variables w w' : World.

Hypothesis same_glob : forall pattern, glob w pattern = glob w' pattern.
Hypothesis same_getmtime : forall p, getmtime w p = getmtime w' p.

Lemma run_getmtime_same p :
  run (os_path_getmtime p) w = run (os_path_getmtime p) w'.
Proof. unfold run, os_path_getmtime. rewrite same_getmtime. reflexivity. Qed.

Lemma run_map_io_same files :
  run (map_io os_path_getmtime files) w = run (map_io os_path_getmtime files) w'.
Proof.
  induction files as [| p files IH]; [reflexivity |].
  cbn [map_io]. rewrite !run_bind, run_getmtime_same.
  destruct (run (os_path_getmtime p) w') as [tr [t | e]]; [| reflexivity].
  rewrite !run_bind, IH.
  destruct (run (map_io os_path_getmtime files) w') as [tr' [ts | e]]; reflexivity.
Qed.

Lemma listed_files_same : listed_files im w = listed_files im w'.
Proof.
  unfold listed_files.
  induction (glob_patterns im) as [| pattern ps IH]; [reflexivity |].
  cbn [flat_map]. rewrite same_glob, IH. reflexivity.
Qed.

Lemma run_timestamp_same : run (timestamp im) w = run (timestamp im) w'.
Proof.
  pose proof listed_files_same as Hfiles.
  destruct (listed_files im w) as [| f files] eqn:Hlisted.
  - rewrite (run_timestamp_no_files w im Hlisted).
    rewrite (run_timestamp_no_files w' im (eq_sym Hfiles)). reflexivity.
  - rewrite (run_timestamp_some_files w im) by (rewrite Hlisted; discriminate).
    rewrite (run_timestamp_some_files w' im) by (rewrite <- Hfiles; discriminate).
    rewrite <- Hfiles, Hlisted.
    change (trace_of ?m w) with (fst (run m w)).
    change (result_of ?m w) with (snd (run m w)).
    change (trace_of ?m w') with (fst (run m w')).
    change (result_of ?m w') with (snd (run m w')).
    rewrite !run_bind, run_map_io_same.
    destruct (run (map_io os_path_getmtime (f :: files)) w') as [tr [ms | e]];
      [| reflexivity].
    destruct ms; reflexivity.
Qed.

(** X20: [timestamp] and [workspace] read nothing but directory listings and
    modification times: in two worlds that agree on these (and may differ in
    the environment variables, the executable search path and what exists),
    they make the same calls and give the same outcome.  The search path is
    the one fixed when the module was imported. *)
Theorem workspace_reads_only_listings_and_mtimes name :
  run (timestamp im) w = run (timestamp im) w' /\
  run (workspace im name) w = run (workspace im name) w'.
Proof.
  split; [exact run_timestamp_same |].
  pose proof (same_getmtime (gap_workspace_file im "libgap" name)) as Hp.
  destruct (getmtime w (gap_workspace_file im "libgap" name)) as [m | e] eqn:Hw.
  - rewrite (workspace_probe_ok im w name m Hw).
    rewrite (workspace_probe_ok im w' name m (eq_sym Hp)).
    change (trace_of (timestamp im) w) with (fst (run (timestamp im) w)).
    change (result_of (timestamp im) w) with (snd (run (timestamp im) w)).
    rewrite run_timestamp_same. reflexivity.
  - destruct e as [code filename | msg | msg].
    + rewrite (workspace_probe_OSError im w name code filename Hw).
      rewrite (workspace_probe_OSError im w' name code filename (eq_sym Hp)).
      reflexivity.
    + rewrite (workspace_probe_other_error im w name _ Hw eq_refl).
      rewrite (workspace_probe_other_error im w' name _ (eq_sym Hp) eq_refl).
      reflexivity.
    + rewrite (workspace_probe_other_error im w name _ Hw eq_refl).
      rewrite (workspace_probe_other_error im w' name _ (eq_sym Hp) eq_refl).
      reflexivity.
Qed.

End Reads.

Lemma workspace_same_after_environment_change :
  run (timestamp installed_imports) installed =
    run (timestamp installed_imports) empty_search_path_installed /\
  run (workspace installed_imports "w1") installed =
    run (workspace installed_imports "w1") empty_search_path_installed.
Proof.
  exact (workspace_reads_only_listings_and_mtimes
           installed_imports installed empty_search_path_installed
           (fun _ => eq_refl) (fun _ => eq_refl) "w1").
Defined.

(** X19: [find_gap] only asks where the launcher is, what [GAP_ROOT] holds
    and whether paths exist; it lists no directory, probes no modification
    time and prints nothing. *)
Theorem find_gap_only_looks_up (w : World) (ev : event) :
  In ev (trace_of Env.find_gap w) ->
  ev = EvWhich "gap" \/ ev = EvEnviron "GAP_ROOT" \/ exists path, ev = EvExists path.
Proof.
  destruct (checked_root_trace w
              (fun root => joinpath root ["lib"; "init.g"])
              (fun root => joinpath root ["pkg"])
              Env.lib_not_found Env.pkg_not_found) as (checks & Htr & Hchecks).
  change (trace_of Env.find_gap w) with (fst (run Env.find_gap w)).
  unfold Env.find_gap. rewrite Htr. intros Hin.
  apply in_app_or in Hin as [Hin | Hin].
  - change (trace_of Env.candidate_root w) with (fst (run Env.candidate_root w)) in Hin.
    destruct (which w "gap") as [exe |] eqn:Hw.
    + rewrite (run_candidate_root_which w exe Hw) in Hin.
      destruct Hin as [<- | []]. left. reflexivity.
    + destruct (environ_get w "GAP_ROOT") as [s |] eqn:He.
      * rewrite (run_candidate_root_override w s Hw He) in Hin.
        destruct Hin as [<- | [<- | []]]; [left | right; left]; reflexivity.
      * rewrite (run_candidate_root_none w Hw He) in Hin.
        destruct Hin as [<- | [<- | []]]; [left | right; left]; reflexivity.
  - right. right. rewrite Forall_forall in Hchecks. exact (Hchecks ev Hin).
Qed.

Lemma find_gap_looks_up_pkg_installed :
  EvExists "/opt/gap/pkg" = EvWhich "gap" \/
  EvExists "/opt/gap/pkg" = EvEnviron "GAP_ROOT" \/
  exists path, EvExists "/opt/gap/pkg" = EvExists path.
Proof.
  refine (find_gap_only_looks_up installed (EvExists "/opt/gap/pkg") _).
  right. right. left. reflexivity.
Defined.

(** ** From [find_gap] to the lookups of [timestamp] *)

Lemma split_no_sep sep s : has_char sep s = false -> split sep s = [s].
Proof.
  induction s as [| c s IH]; [reflexivity |].
  cbn [has_char split]. intros H. apply orb_false_iff in H as [Hc Hs].
  rewrite Hc, (IH Hs). reflexivity.
Qed.

Lemma has_char_endswith c s : has_char c s = false -> endswith_char c s = false.
Proof.
  induction s as [| d s IH]; [reflexivity |].
  cbn [has_char]. intros H. apply orb_false_iff in H as [Hd Hs].
  destruct s; [exact Hd | exact (IH Hs)].
Qed.

Lemma endswith_char_app c a b :
  nonempty b = true -> endswith_char c (a ++ b) = endswith_char c b.
Proof. destruct b as [| d b]; [discriminate |]. intros _. apply endswith_char_append. Qed.

Lemma join_with_snoc sep parts x :
  parts <> [] ->
  join_with sep (parts ++ [x]) = (join_with sep parts ++ String sep x)%string.
Proof.
  induction parts as [| part parts IH]; [contradiction |]. intros _.
  destruct parts as [| part' parts].
  - reflexivity.
  - change (join_with sep ((part :: part' :: parts) ++ [x]))
      with (part ++ String sep (join_with sep ((part' :: parts) ++ [x])))%string.
    rewrite IH by discriminate.
    change (join_with sep (part :: part' :: parts))
      with (part ++ String sep (join_with sep (part' :: parts)))%string.
    rewrite string_app_assoc. reflexivity.
Qed.

(** The text of canonical components does not end in a slash. *)
Lemma join_with_no_trailing_slash parts :
  parts <> [] ->
  Forall (fun part => nonempty part = true /\ has_char slash part = false) parts ->
  nonempty (join_with slash parts) = true /\
  endswith_char slash (join_with slash parts) = false.
Proof.
  induction parts as [| part parts IH]; [contradiction |]. intros _ Hall.
  inversion Hall as [| ? ? [Hne Hno] Hrest]; subst.
  destruct parts as [| part' parts].
  - split; [exact Hne | apply has_char_endswith; exact Hno].
  - destruct (IH ltac:(discriminate) Hrest) as [Hne' Hend].
    change (join_with slash (part :: part' :: parts))
      with (part ++ String slash (join_with slash (part' :: parts)))%string.
    split; [apply nonempty_append_l; exact Hne |].
    rewrite endswith_char_append.
    destruct (join_with slash (part' :: parts)); [discriminate | exact Hend].
Qed.

Lemma Path_of_canonical s : Path_canonical (Path_of s).
Proof.
  split.
  - cbn [Path_of path_root]. unfold parse_root.
    destruct (startswith "//" s && negb (startswith "///" s));
      [right; right; reflexivity |].
    destruct (startswith "/" s); [right; left | left]; reflexivity.
  - cbn [Path_of path_parts]. unfold parse_parts.
    apply Forall_forall. intros part Hin. apply filter_In in Hin as [Hin H].
    apply andb_true_iff in H as [H _]. split; [exact H |].
    pose proof (split_segments_no_sep slash s) as Hseg.
    rewrite Forall_forall in Hseg. exact (Hseg part Hin).
Qed.

Lemma Path_parent_canonical p : Path_canonical p -> Path_canonical (Path_parent p).
Proof.
  intros [Hroot Hparts]. unfold Path_parent.
  destruct (path_parts p) as [| part parts] eqn:Heq.
  - split; [exact Hroot | rewrite Heq; constructor].
  - split; [exact Hroot |]. cbn [path_parts]. apply Forall_removelast. exact Hparts.
Qed.

Lemma find_gap_root_canonical w r :
  result_of Env.find_gap w = Return r -> Path_canonical r.
Proof.
  intros Hr. apply env_find_gap_returns_candidate, candidate_root_sources in Hr.
  destruct Hr as [(exe & _ & ->) | (_ & s & _ & ->)].
  - apply Path_parent_canonical, Path_of_canonical.
  - apply Path_of_canonical.
Qed.

(** For a canonical path other than the empty one, joining [pkg] and [*]
    to its text gives the text of its [pkg] folder followed by [/*]. *)
Lemma pkg_pattern_of_Path p :
  Path_canonical p ->
  path_root p <> "" \/ path_parts p <> [] ->
  SavedWorkspace.pkg_pattern (Path_str p) =
  (Path_str (joinpath p ["pkg"]) ++ "/*")%string.
Proof.
  intros [Hroot Hparts] Hnot.
  assert (Hjoin : joinpath p ["pkg"] =
                  {| path_root := path_root p;
                     path_parts := (path_parts p ++ ["pkg"])%list |}) by reflexivity.
  rewrite Hjoin. clear Hjoin.
  destruct p as [root parts]. cbn [path_root path_parts] in *.
  destruct parts as [| part parts].
  - assert (Hr : root = "/" \/ root = "//")
      by (destruct Hroot as [-> | H]; [destruct Hnot; congruence | exact H]).
    destruct Hr as [-> | ->]; reflexivity.
  - destruct (join_with_no_trailing_slash (part :: parts) ltac:(discriminate) Hparts)
      as [Hne Hend].
    assert (Hstr : forall l, l <> [] ->
              Path_str {| path_root := root; path_parts := l |} =
              (root ++ join_with slash l)%string).
    { intros l Hl. unfold Path_str. cbn [path_root path_parts].
      destruct root; [destruct l; [contradiction | reflexivity] | reflexivity]. }
    rewrite (Hstr (part :: parts)) by discriminate.
    rewrite (Hstr ((part :: parts) ++ ["pkg"])%list)
      by (cbn [app]; discriminate).
    rewrite join_with_snoc by discriminate.
    assert (Hne' : nonempty (root ++ join_with slash (part :: parts)) = true).
    { destruct root; [exact Hne | reflexivity]. }
    rewrite (pkg_pattern_nonempty _ Hne').
    rewrite (endswith_char_app slash root _ Hne), Hend.
    rewrite !string_app_assoc. reflexivity.
Qed.

(** X21: when [GAP_ROOT_PATHS] is unset or empty, the search path is the
    root of [find_gap]; if that root is not the empty path and has no
    semicolon in it, the one package lookup [timestamp] makes for it is for
    the entries of the [pkg] folder that [find_gap] checked. *)
Theorem fallback_search_path_lists_checked_pkg w root :
  truthy (environ_get w "GAP_ROOT_PATHS") = false ->
  result_of Env.find_gap w = Return root ->
  has_char semicolon (as_posix root) = false ->
  path_root root <> "" \/ path_parts root <> [] ->
  result_of Env.GAP_ROOT_PATHS w = Return (as_posix root) /\
  map SavedWorkspace.pkg_pattern (search_path_entries (as_posix root)) =
    [(Path_str (joinpath root ["pkg"]) ++ "/*")%string] /\
  (py_debug w = true -> path_exists w (Path_str (joinpath root ["pkg"])) = true).
Proof.
  intros Hv Hroot Hsemi Hnot. split; [| split].
  - change (snd (run Env.GAP_ROOT_PATHS w) = Return (as_posix root)).
    rewrite (GAP_ROOT_PATHS_falls_back w Hv). cbn [snd]. rewrite Hroot. reflexivity.
  - pose proof (find_gap_root_canonical w root Hroot) as Hcan.
    unfold search_path_entries. rewrite (split_no_sep _ _ Hsemi).
    cbn [filter]. unfold as_posix.
    rewrite (Path_str_nonempty root (find_gap_root_wf w root Hroot)).
    cbn [map]. rewrite (pkg_pattern_of_Path root Hcan Hnot). reflexivity.
  - intros Hd.
    pose proof (env_find_gap_returns_candidate w root Hroot) as Hcand.
    rewrite (result_find_gap_debug w root Hd Hcand) in Hroot.
    destruct (Path_exists_answer w (Path_str (joinpath root ["lib"; "init.g"])))
      as [[|] | e]; try discriminate.
    destruct (Path_exists_answer w (Path_str (joinpath root ["pkg"])))
      as [[|] | e] eqn:Hpkg; try discriminate.
    apply Path_exists_answer_true. exact Hpkg.
Qed.

Lemma fallback_search_path_installed :
  result_of Env.GAP_ROOT_PATHS empty_search_path_installed = Return "/opt/gap" /\
  map SavedWorkspace.pkg_pattern (search_path_entries "/opt/gap") = ["/opt/gap/pkg/*"] /\
  (py_debug empty_search_path_installed = true ->
   path_exists empty_search_path_installed "/opt/gap/pkg" = true).
Proof.
  refine (fallback_search_path_lists_checked_pkg
            empty_search_path_installed (Path_of "/opt/gap") eq_refl eq_refl eq_refl _).
  left. discriminate.
Defined.
